(** * omi_weather_forecast: the webhook trigger/aggregation engine

    A shallow embedding of [weather_omi.py]: the session store
    ([MessageBuffer]), the notification cooldown map and the [webhook]
    handler, followed by the properties of the specification that concern
    them.

    Conventions of the embedding.
    - Time.  [time.time()] readings are rationals ([Q]); the thresholds
      5, 5 * 1.5, 2.0, 10, 300 and 3600 are exact.  Every reading of the
      clock is an explicit argument of the function that reads it.
    - Text.  A Python [str] is a [string] whose characters are the code
      points below 256; [lower] and [strip] follow Python on that range.
    - Dictionaries are [gmap]s keyed by the session identifier;
      [notification_cooldowns] is a [defaultdict(float)], so reading a
      missing key stores [0] under it.
    - The two outbound collaborators ([get_openai_response] and
      [get_weather_forecast]) are opaque functions handed to the handler;
      the calls made during a request are recorded in its result. *)

From Stdlib Require Import QArith Lqa.
From Stdlib Require Import Ascii String.
From stdpp Require Import gmap strings list fin_maps.

Local Open Scope string_scope.

(** ** Python string operations *)

Module Py.

(** [c.lower()] on a code point below 256: A-Z and the Latin-1 capitals
    (0xC0-0xDE without the multiplication sign 0xD7) move up by 32. *)
Definition lower_char (c : ascii) : ascii :=
  let n := nat_of_ascii c in
  if ((65 <=? n) && (n <=? 90)
      || (192 <=? n) && (n <=? 222) && negb (n =? 215))%nat
  then ascii_of_nat (n + 32)
  else c.

Fixpoint lower (s : string) : string :=
  match s with
  | EmptyString => EmptyString
  | String c s' => String (lower_char c) (lower s')
  end.

(** [c.isspace()] on a code point below 256. *)
Definition isspace (c : ascii) : bool :=
  let n := nat_of_ascii c in
  ((9 <=? n) && (n <=? 13) || (28 <=? n) && (n <=? 32)
   || (n =? 133) || (n =? 160))%nat.

Definition is_empty (s : string) : bool :=
  match s with EmptyString => true | String _ _ => false end.

Fixpoint lstrip (s : string) : string :=
  match s with
  | EmptyString => EmptyString
  | String c s' => if isspace c then lstrip s' else s
  end.

Fixpoint rstrip (s : string) : string :=
  match s with
  | EmptyString => EmptyString
  | String c s' =>
      let r := rstrip s' in
      if isspace c && is_empty r then EmptyString else String c r
  end.

(** [s.strip()] *)
Definition strip (s : string) : string := rstrip (lstrip s).

(** [s.startswith(p)] *)
Fixpoint startswith (p s : string) : bool :=
  match p, s with
  | EmptyString, _ => true
  | String _ _, EmptyString => false
  | String a p', String b s' => Ascii.eqb a b && startswith p' s'
  end.

(** [sub in s] *)
Fixpoint contains (sub s : string) : bool :=
  startswith sub s
  || match s with
     | EmptyString => false
     | String _ s' => contains sub s'
     end.

(** [s.endswith(suf)] *)
Fixpoint endswith (suf s : string) : bool :=
  String.eqb suf s
  || match s with
     | EmptyString => false
     | String _ s' => endswith suf s'
     end.

(** [s.split(sep)] for a non-empty [sep]: the pieces between the
    occurrences of [sep], found left to right without overlap.  [skip]
    counts the characters of a separator still to be passed over and
    [cur] holds the current piece, reversed. *)
Fixpoint split_go (sep : string) (skip : nat) (cur : string) (s : string)
  : list string :=
  match s with
  | EmptyString => [String.rev cur]
  | String c s' =>
      match skip with
      | S k => split_go sep k cur s'
      | O =>
          if startswith sep s
          then String.rev cur
                 :: split_go sep (String.length sep - 1) EmptyString s'
          else split_go sep O (String c cur) s'
      end
  end.

Definition split (sep s : string) : list string :=
  split_go sep 0 EmptyString s.

(** [l[-1]] for a list that [split] returned (never empty). *)
Definition last_piece (l : list string) : string := List.last l EmptyString.

(** [sep.join(l)] *)
Fixpoint join (sep : string) (l : list string) : string :=
  match l with
  | [] => EmptyString
  | [x] => x
  | x :: l' => x +:+ sep +:+ join sep l'
  end.

End Py.

(** ** Constants *)

Local Open Scope Q_scope.

Definition TRIGGER_PHRASES : list string := ["hey omi"; "hey, omi"]%string.
Definition PARTIAL_FIRST : list string := ["hey"; "hey,"]%string.
Definition PARTIAL_SECOND : list string := ["omi"]%string.
Definition QUESTION_AGGREGATION_TIME : Q := 5.
Definition NOTIFICATION_COOLDOWN : Q := 10.

(** [a > b] and [a < b] on clock readings, as booleans. *)
Definition Qgtb (a b : Q) : bool := negb (Qle_bool a b).
Definition Qltb (a b : Q) : bool := negb (Qle_bool b a).

(** ** The session store *)

(** The per-session dictionary created by [get_buffer]. *)
Record buffer_data : Type := mk_buffer_data {
  messages : list string;
  trigger_detected : bool;
  trigger_time : Q;
  collected_question : list string;
  response_sent : bool;
  partial_trigger : bool;
  partial_trigger_time : Q;
  last_activity : Q
}.

Definition set_last_activity (t : Q) (b : buffer_data) : buffer_data :=
  {| messages := messages b;
     trigger_detected := trigger_detected b;
     trigger_time := trigger_time b;
     collected_question := collected_question b;
     response_sent := response_sent b;
     partial_trigger := partial_trigger b;
     partial_trigger_time := partial_trigger_time b;
     last_activity := t |}.

Definition set_partial_trigger (p : bool) (b : buffer_data) : buffer_data :=
  {| messages := messages b;
     trigger_detected := trigger_detected b;
     trigger_time := trigger_time b;
     collected_question := collected_question b;
     response_sent := response_sent b;
     partial_trigger := p;
     partial_trigger_time := partial_trigger_time b;
     last_activity := last_activity b |}.

Definition set_partial_trigger_time (t : Q) (b : buffer_data) : buffer_data :=
  {| messages := messages b;
     trigger_detected := trigger_detected b;
     trigger_time := trigger_time b;
     collected_question := collected_question b;
     response_sent := response_sent b;
     partial_trigger := partial_trigger b;
     partial_trigger_time := t;
     last_activity := last_activity b |}.

(** [buffer_data["collected_question"].append(x)] *)
Definition append_question (x : string) (b : buffer_data) : buffer_data :=
  {| messages := messages b;
     trigger_detected := trigger_detected b;
     trigger_time := trigger_time b;
     collected_question := collected_question b ++ [x];
     response_sent := response_sent b;
     partial_trigger := partial_trigger b;
     partial_trigger_time := partial_trigger_time b;
     last_activity := last_activity b |}.

(** The five assignments made when a trigger is confirmed (lines 169-173
    and again 212-216). *)
Definition confirm_trigger (current_time : Q) (b : buffer_data) : buffer_data :=
  {| messages := messages b;
     trigger_detected := true;
     trigger_time := current_time;
     collected_question := [];
     response_sent := false;
     partial_trigger := false;
     partial_trigger_time := partial_trigger_time b;
     last_activity := last_activity b |}.

(** "Reset all states" (lines 284-288). *)
Definition reset_states (b : buffer_data) : buffer_data :=
  {| messages := messages b;
     trigger_detected := false;
     trigger_time := 0;
     collected_question := [];
     response_sent := true;
     partial_trigger := false;
     partial_trigger_time := partial_trigger_time b;
     last_activity := last_activity b |}.

(** The dictionary stored for a session seen for the first time. *)
Definition fresh_buffer (current_time : Q) : buffer_data :=
  {| messages := [];
     trigger_detected := false;
     trigger_time := 0;
     collected_question := [];
     response_sent := false;
     partial_trigger := false;
     partial_trigger_time := 0;
     last_activity := current_time |}.

(** [class MessageBuffer]; the lock has no counterpart in a sequential
    model. *)
Record MessageBuffer : Type := mk_MessageBuffer {
  buffers : gmap string buffer_data;
  cleanup_interval : Q;
  last_cleanup : Q
}.

(** [MessageBuffer.__init__], the clock reading being [t]. *)
Definition MessageBuffer_init (t : Q) : MessageBuffer :=
  {| buffers := ∅; cleanup_interval := 300; last_cleanup := t |}.

(** A session is expired at [current_time] when
    [current_time - data["last_activity"] > 3600]. *)
Definition expired (current_time : Q) (data : buffer_data) : bool :=
  Qgtb (current_time - last_activity data) 3600.

(** [MessageBuffer.cleanup_old_sessions], reading the clock as
    [current_time]. *)
Definition cleanup_old_sessions (self : MessageBuffer) (current_time : Q)
  : MessageBuffer :=
  {| buffers :=
       filter (λ kv : string * buffer_data, expired current_time kv.2 = false)
              (buffers self);
     cleanup_interval := cleanup_interval self;
     last_cleanup := current_time |}.

(** The test of line 44. *)
Definition cleanup_due (self : MessageBuffer) (current_time : Q) : bool :=
  Qgtb (current_time - last_cleanup self) (cleanup_interval self).

(** Lines 47-62 of [get_buffer]: the entry of [session_id] is created or
    its [last_activity] refreshed; the dictionary returned is the one
    stored under [session_id]. *)
Definition lookup_or_create (self : MessageBuffer) (session_id : string)
    (current_time : Q) : MessageBuffer * buffer_data :=
  let data :=
    match buffers self !! session_id with
    | None => fresh_buffer current_time
    | Some old => set_last_activity current_time old
    end in
  ({| buffers := <[session_id := data]> (buffers self);
      cleanup_interval := cleanup_interval self;
      last_cleanup := last_cleanup self |},
   data).

(** [MessageBuffer.get_buffer].  [current_time] is the reading of line 41,
    [sweep_time] the one [cleanup_old_sessions] takes when it is called. *)
Definition get_buffer (self : MessageBuffer) (session_id : string)
    (current_time sweep_time : Q) : MessageBuffer * buffer_data :=
  lookup_or_create
    (if cleanup_due self current_time
     then cleanup_old_sessions self sweep_time
     else self)
    session_id current_time.

(** [len(message_buffer.buffers)] of the status endpoint. *)
Definition active_sessions (self : MessageBuffer) : nat := size (buffers self).

(** [notification_cooldowns[session_id]] on a [defaultdict(float)]: the
    value read, and the dictionary afterwards. *)
Definition cooldown_read (cd : gmap string Q) (session_id : string)
  : Q * gmap string Q :=
  match cd !! session_id with
  | Some t => (t, cd)
  | None => (0, <[session_id := 0]> cd)
  end.

(** ** The webhook handler *)

(** The JSON body of a delivery: [data.get("session_id")] and
    [data.get("segments", [])], each segment with its optional ["text"]. *)
Record segment : Type := mk_segment { text : option string }.

Record request : Type := mk_request {
  session_id : option string;
  segments : list segment
}.

(** The two collaborators the handler calls. *)
Record collaborators : Type := mk_collaborators {
  get_openai_response : string → string;
  get_weather_forecast : string → string → string
}.

(** An outbound call, as recorded in the result of a request. *)
Inductive call : Type :=
  | OpenAI (prompt : string)
  | WeatherForecast (city country : string).

(** What the handler returns. *)
Inductive response : Type :=
  | Success                        (* {"status": "success"}, 200 *)
  | Forecast (message : string)    (* {"message": forecast_response}, 200 *)
  | NoSessionId                    (* "No session_id provided", 400 *)
  | InvalidLocation.               (* "Invalid location extracted", 400 *)

(** The outcome of one turn of the loop over the segments: [continue] (or
    the end of the body) with the dictionary and the cooldowns as they now
    are, or a [return] from the handler. *)
Inductive step_result : Type :=
  | Continue (b : buffer_data) (cd : gmap string Q)
  | Return (r : response) (calls : list call)
           (b : buffer_data) (cd : gmap string Q).

Definition nonempty {A : Type} (l : list A) : bool :=
  match l with [] => false | _ :: _ => true end.

(** [any(trigger in text for trigger in [t.lower() for t in TRIGGER_PHRASES])] *)
Definition has_trigger_phrase (txt : string) : bool :=
  existsb (λ trigger, Py.contains trigger txt) (map Py.lower TRIGGER_PHRASES).

(** [any(text.endswith(part.lower()) for part in PARTIAL_FIRST)] *)
Definition ends_with_first (txt : string) : bool :=
  existsb (λ part, Py.endswith (Py.lower part) txt) PARTIAL_FIRST.

(** [any(part.lower() in text.lower() for part in PARTIAL_SECOND)] *)
Definition has_second (txt : string) : bool :=
  existsb (λ part, Py.contains (Py.lower part) (Py.lower txt)) PARTIAL_SECOND.

(** [text.split("omi,")[-1].strip() if "omi," in text.lower() else ""] *)
Definition question_part (txt : string) : string :=
  if Py.contains "omi," (Py.lower txt)
  then Py.strip (Py.last_piece (Py.split "omi," txt))
  else ""%string.

(** Lines 182-183 and 224-225: the trailing text, when there is some,
    becomes the first fragment. *)
Definition collect_question_part (txt : string) (b : buffer_data)
  : buffer_data :=
  let qp := question_part txt in
  if Py.is_empty qp then b else append_question qp b.

(** Lines 262-264. *)
Definition full_question (b : buffer_data) : string :=
  let q := Py.strip (Py.join " " (collected_question b)) in
  if Py.endswith "?" q then q else (q +:+ "?")%string.

(** Line 269. *)
Definition location_query (q : string) : string :=
  ("Extract the city and country from the following question, comma separate it, it should be the only thing returned: "
   +:+ q)%string.

(** Lines 261-304: the question is sent to the resolver; two
    comma-separated parts lead to the forecast call, the reset and the
    forecast response, anything else to the error response. *)
Definition dispatch (ext : collaborators) (b : buffer_data)
    (cd : gmap string Q) : step_result :=
  let query := location_query (full_question b) in
  let location_response := get_openai_response ext query in
  match Py.split "," location_response with
  | [p0; p1] =>
      let city := Py.strip p0 in
      let country := Py.strip p1 in
      let forecast_response := get_weather_forecast ext city country in
      Return (Forecast forecast_response)
             [OpenAI query; WeatherForecast city country]
             (reset_states b) cd
  | _ => Return InvalidLocation [OpenAI query] b cd
  end.

(** Lines 243-244. *)
Definition collect (current_time : Q) (txt : string) (b : buffer_data)
  : buffer_data :=
  if Qle_bool (current_time - trigger_time b) QUESTION_AGGREGATION_TIME
  then append_question txt b
  else b.

(** Lines 251-258. *)
Definition should_process (current_time : Q) (txt : string) (b : buffer_data)
  : bool :=
  let time_since_trigger := current_time - trigger_time b in
  Qgtb time_since_trigger QUESTION_AGGREGATION_TIME
    && nonempty (collected_question b)
  || nonempty (collected_question b) && Py.contains "?" txt
  || Qgtb time_since_trigger (QUESTION_AGGREGATION_TIME * 1.5).

(** Lines 250-304: the question is processed when [should_process] holds
    and something was collected; otherwise the body of the loop ends. *)
Definition ready_stage (ext : collaborators) (current_time : Q) (txt : string)
    (b : buffer_data) (cd : gmap string Q) : step_result :=
  if should_process current_time txt b && nonempty (collected_question b)
  then dispatch ext b cd
  else Continue b cd.

(** Lines 234-304: collection of the question and its processing. *)
Definition collect_stage (ext : collaborators) (has_processed : bool)
    (current_time : Q) (txt : string) (b : buffer_data) (cd : gmap string Q)
  : step_result :=
  if trigger_detected b && negb (response_sent b) && negb has_processed
  then ready_stage ext current_time txt (collect current_time txt b) cd
  else Continue b cd.

(** Lines 157-304: the body of the loop for one segment. *)
Definition process_segment (ext : collaborators) (has_processed : bool)
    (sid : string) (current_time : Q) (seg : segment)
    (b : buffer_data) (cd : gmap string Q) : step_result :=
  match text seg with
  | None => Continue b cd
  | Some raw =>
      if Py.is_empty raw || has_processed then Continue b cd
      else
        let txt := Py.strip (Py.lower raw) in
        if has_trigger_phrase txt && negb (trigger_detected b)
        then
          Continue (collect_question_part txt (confirm_trigger current_time b))
                   (<[sid := current_time]> cd)
        else if negb (trigger_detected b)
        then
          if ends_with_first txt
          then
            Continue (set_partial_trigger_time current_time
                        (set_partial_trigger true b)) cd
          else if partial_trigger b
          then
            if Qle_bool (current_time - partial_trigger_time b) 2.0
            then
              if has_second txt
              then
                Continue
                  (collect_question_part txt (confirm_trigger current_time b))
                  cd
              else collect_stage ext has_processed current_time txt b cd
            else
              collect_stage ext has_processed current_time txt
                            (set_partial_trigger false b) cd
          else collect_stage ext has_processed current_time txt b cd
        else collect_stage ext has_processed current_time txt b cd
  end.

(** The loop of lines 156-304 followed by line 307.  [has_processed] is
    only assigned immediately before a [return], so each turn sees the
    value the loop started with. *)
Fixpoint process_segments (ext : collaborators) (has_processed : bool)
    (sid : string) (current_time : Q) (segs : list segment)
    (b : buffer_data) (cd : gmap string Q)
  : response * list call * buffer_data * gmap string Q :=
  match segs with
  | [] => (Success, [], b, cd)
  | seg :: rest =>
      match process_segment ext has_processed sid current_time seg b cd with
      | Continue b' cd' =>
          process_segments ext has_processed sid current_time rest b' cd'
      | Return r calls b' cd' => (r, calls, b', cd')
      end
  end.

(** The process-wide state: [message_buffer] and [notification_cooldowns]. *)
Record state : Type := mk_state {
  message_buffer : MessageBuffer;
  notification_cooldowns : gmap string Q
}.

(** The dictionary [buffer_data] aliases the entry of the store, so what the
    loop did to it is what the store holds afterwards. *)
Definition store_buffer (mb : MessageBuffer) (sid : string) (b : buffer_data)
  : MessageBuffer :=
  {| buffers := <[sid := b]> (buffers mb);
     cleanup_interval := cleanup_interval mb;
     last_cleanup := last_cleanup mb |}.

(** The cooldown test of lines 145-149: whether the request is answered at
    once, and the cooldowns after the read. *)
Definition cooldown_active (current_time : Q) (sid : string)
    (b : buffer_data) (cd : gmap string Q) : bool * gmap string Q :=
  if trigger_detected b && negb (response_sent b)
  then
    let '(last, cd1) := cooldown_read cd sid in
    (Qltb (current_time - last) NOTIFICATION_COOLDOWN, cd1)
  else (false, cd).

(** [webhook] (POST).  [current_time] is the reading of line 136,
    [get_time] and [sweep_time] are the readings taken inside
    [get_buffer]. *)
Definition webhook (ext : collaborators) (st : state) (req : request)
    (current_time get_time sweep_time : Q) : response * list call * state :=
  match session_id req with
  | None => (NoSessionId, [], st)
  | Some sid =>
      if Py.is_empty sid then (NoSessionId, [], st)
      else
        let '(mb, b) :=
          get_buffer (message_buffer st) sid get_time sweep_time in
        let '(active, cd) :=
          cooldown_active current_time sid b (notification_cooldowns st) in
        if active
        then (Success, [],
              {| message_buffer := mb; notification_cooldowns := cd |})
        else
          let '(r, calls, b', cd') :=
            process_segments ext false sid current_time (segments req) b cd in
          (r, calls,
           {| message_buffer := store_buffer mb sid b';
              notification_cooldowns := cd' |})
  end.

(** ** Sequences of deliveries *)

(** One delivery: the request, the three clock readings taken while it is
    handled and what the collaborators answer during it. *)
Record delivery : Type := mk_delivery {
  d_request : request;
  d_current_time : Q;
  d_get_time : Q;
  d_sweep_time : Q;
  d_ext : collaborators
}.

Definition handle (st : state) (d : delivery) : response * list call * state :=
  webhook (d_ext d) st (d_request d)
          (d_current_time d) (d_get_time d) (d_sweep_time d).

Definition run (st : state) (ds : list delivery) : state :=
  fold_left (λ s d, (handle s d).2) ds st.

(** The state of a process started at [t]. *)
Definition initial_state (t : Q) : state :=
  {| message_buffer := MessageBuffer_init t; notification_cooldowns := ∅ |}.

(** ** The logical states of a session record *)

Inductive phase : Type := IDLE | PARTIAL_PENDING | COLLECTING.

Definition phase_of (b : buffer_data) : phase :=
  if trigger_detected b then COLLECTING
  else if partial_trigger b then PARTIAL_PENDING
  else IDLE.

(** ** The invariant of the session records *)

(** Fragments are only held by a triggered record. *)
Definition question_implies_trigger (b : buffer_data) : Prop :=
  collected_question b ≠ [] → trigger_detected b = true.

Definition store_invariant (st : state) : Prop :=
  map_Forall (λ _ b, question_implies_trigger b) (buffers (message_buffer st)).

(** The record a turn of the loop leaves behind. *)
Definition record_after (r : step_result) : buffer_data :=
  match r with
  | Continue b _ => b
  | Return _ _ b _ => b
  end.

(** ** Concrete collaborators and requests used in the examples *)

Definition ext_paris : collaborators :=
  {| get_openai_response := λ _, "Paris, France"%string;
     get_weather_forecast := λ _ _, "Sunny in Paris."%string |}.

Definition ext_no_location : collaborators :=
  {| get_openai_response := λ _, "I do not know"%string;
     get_weather_forecast := λ _ _, "Sunny in Paris."%string |}.

Definition seg (s : string) : segment := {| text := Some s |}.

Definition req_s1 (l : list string) : request :=
  {| session_id := Some "s1"%string; segments := map seg l |}.

(** A record in COLLECTING, confirmed at time 100, with nothing collected. *)
Definition collecting_100 : buffer_data := confirm_trigger 100 (fresh_buffer 100).

(** A record in PARTIAL_PENDING, the first half seen at time 100. *)
Definition partial_100 : buffer_data :=
  set_partial_trigger_time 100 (set_partial_trigger true (fresh_buffer 100)).

(** ** The other routes *)

(** What [get_weather] (GET /weather) returns.  The 500 answer of its
    [except] clause needs an exception out of [str.split] or out of
    [get_weather_forecast], which catches its own. *)
Inductive weather_response : Type :=
  | ForecastFor (forecast : string)  (* {"forecast": forecast_response}, 200 *)
  | LocationRequired                 (* "Location is required", 400 *)
  | InvalidFormat.                   (* "Invalid location format. ...", 400 *)

(** [get_weather], [location] being [request.args.get("location")]. *)
Definition get_weather (ext : collaborators) (location : option string)
  : weather_response * list call :=
  match location with
  | None => (LocationRequired, [])
  | Some loc =>
      if Py.is_empty loc then (LocationRequired, [])
      else
        match Py.split "," loc with
        | [p0; p1] =>
            let city := Py.strip p0 in
            let country := Py.strip p1 in
            (ForecastFor (get_weather_forecast ext city country),
             [WeatherForecast city country])
        | _ => (InvalidFormat, [])
        end
  end.

(** [status] (GET /status): the number of sessions and the uptime. *)
Definition status (st : state) (now start_time : Q) : nat * Q :=
  (active_sessions (message_buffer st), now - start_time).

(** [range(start, stop, step)] for a positive [step]. *)
Definition py_range (start stop step : nat) : list nat :=
  map (λ k, start + k * step)%nat
      (seq 0 ((stop - start + (step - 1)) / step)%nat).

(** Line 407 of [get_weather_forecast]:
    [[forecast_data[i] for i in range(0, len(forecast_data), 8)]]. *)
Definition daily_forecast {A : Type} (forecast_data : list A) : list A :=
  omap (λ i, forecast_data !! i) (py_range 0 (length forecast_data) 8).

(** What [get_openai_response] returns when the call to the model raises
    (line 115). *)
Definition OPENAI_FALLBACK : string :=
  "I'm sorry, I encountered an error processing your request.".

(** Collaborators whose language model is down. *)
Definition ext_fallback : collaborators :=
  {| get_openai_response := λ _, OPENAI_FALLBACK;
     get_weather_forecast := λ _ _, "Location not found"%string |}.

(** ** Notions used to state the properties *)

(** [s.count(c)] for a character. *)
Fixpoint count_char (c : ascii) (s : string) : nat :=
  match s with
  | EmptyString => 0%nat
  | String a s' => ((if Ascii.eqb a c then 1 else 0) + count_char c s')%nat
  end.

(** A segment the loop does not skip (line 157). *)
Definition has_text (s : segment) : bool :=
  match text s with
  | Some raw => negb (Py.is_empty raw)
  | None => false
  end.

(** The shape of a record: a triggered record is unanswered and has no
    pending first half; an untriggered one has the sentinel trigger time;
    [messages] is never written. *)
Definition well_formed (b : buffer_data) : Prop :=
  messages b = []
  ∧ (trigger_detected b = true →
     response_sent b = false ∧ partial_trigger b = false)
  ∧ (trigger_detected b = false → trigger_time b = 0).

(** The three ways the loop over the segments can end: no dispatch; a
    dispatch whose resolver answer is not two comma-separated parts, the
    record staying triggered with the question that was sent; a dispatch
    with a forecast, the record being reset. *)
Definition loop_outcome (ext : collaborators)
    (out : response * list call * buffer_data * gmap string Q) : Prop :=
  out.1.1 = (Success, [])
  ∨ (out.1.1
     = (InvalidLocation, [OpenAI (location_query (full_question out.1.2))])
     ∧ length (Py.split ","
                 (get_openai_response ext
                    (location_query (full_question out.1.2)))) ≠ 2%nat
     ∧ trigger_detected out.1.2 = true
     ∧ response_sent out.1.2 = false
     ∧ collected_question out.1.2 ≠ [])
  ∨ (∃ q p0 p1,
       out.1.1
       = (Forecast (get_weather_forecast ext (Py.strip p0) (Py.strip p1)),
          [OpenAI q; WeatherForecast (Py.strip p0) (Py.strip p1)])
       ∧ Py.split "," (get_openai_response ext q) = [p0; p1]
       ∧ trigger_detected out.1.2 = false
       ∧ trigger_time out.1.2 = 0
       ∧ collected_question out.1.2 = []
       ∧ response_sent out.1.2 = true
       ∧ partial_trigger out.1.2 = false).

(** * Properties *)

(** ** The string operations on examples *)

Example lower_ex : Py.lower "Hey, OMI What's up?" = "hey, omi what's up?"%string.
Proof. reflexivity. Qed.

Example strip_ex : Py.strip "  a b  " = "a b"%string.
Proof. reflexivity. Qed.

Example split_ex :
  Py.split "omi," "hey omi, what omi,now" = ["hey "; " what "; "now"]%string.
Proof. reflexivity. Qed.

Example split_comma_ex :
  Py.split "," "Paris, France" = ["Paris"; " France"]%string.
Proof. reflexivity. Qed.

Example split_none_ex : Py.split "," "Paris" = ["Paris"]%string.
Proof. reflexivity. Qed.

Example join_ex : Py.join " " ["a"; "b"; "c"] = "a b c"%string.
Proof. reflexivity. Qed.

Example endswith_ex : Py.endswith "hey," "oh hey," = true.
Proof. reflexivity. Qed.

Example contains_ex : Py.contains "omi" "hey omi there" = true.
Proof. reflexivity. Qed.

Example question_part_ex :
  question_part "hey omi, what's the weather" = "what's the weather"%string.
Proof. reflexivity. Qed.

(** ** Comparisons of clock readings *)

Lemma Qgtb_true (a b : Q) : Qgtb a b = true ↔ b < a.
Proof.
  unfold Qgtb. rewrite negb_true_iff, <- not_true_iff_false, Qle_bool_iff.
  split; [apply Qnot_le_lt | apply Qlt_not_le].
Qed.

Lemma Qgtb_false (a b : Q) : Qgtb a b = false ↔ a <= b.
Proof. unfold Qgtb. rewrite negb_false_iff. apply Qle_bool_iff. Qed.

Lemma Qltb_true (a b : Q) : Qltb a b = true ↔ a < b.
Proof. unfold Qltb. apply Qgtb_true. Qed.

Lemma Qle_bool_false (a b : Q) : Qle_bool a b = false ↔ b < a.
Proof.
  rewrite <- not_true_iff_false, Qle_bool_iff.
  split; [apply Qnot_le_lt | apply Qlt_not_le].
Qed.

(** ** Suffixes *)

Lemma endswith_append (suf s : string) : Py.endswith suf (s +:+ suf) = true.
Proof.
  induction s as [|c s IH]; simpl.
  - destruct suf; simpl; [reflexivity|].
    rewrite Ascii.eqb_refl, String.eqb_refl. reflexivity.
  - rewrite IH. apply orb_true_r.
Qed.

Lemma endswith_suffix (suf s : string) :
  Py.endswith suf s = true → ∃ p, s = (p +:+ suf)%string.
Proof.
  induction s as [|c s IH]; simpl; intros H.
  - rewrite orb_false_r in H. apply String.eqb_eq in H. subst suf.
    exists ""%string. reflexivity.
  - apply orb_true_iff in H as [H|H].
    + apply String.eqb_eq in H. subst suf. exists ""%string. reflexivity.
    + destruct (IH H) as [p ->]. exists (String c p). reflexivity.
Qed.

(** ** The question handed to the resolver (C10) *)

Lemma dispatch_question_shape (ext : collaborators) (b : buffer_data)
    (cd : gmap string Q) :
  ∃ r rest b',
    dispatch ext b cd
    = Return r (OpenAI (location_query (full_question b)) :: rest) b' cd.
Proof.
  unfold dispatch. destruct (Py.split "," _) as [|p0 [|p1 [|p2 l]]]; eauto.
Qed.

Lemma endswith_after_prefix (suf p s : string) :
  Py.endswith suf s = true → Py.endswith suf (p +:+ s)%string = true.
Proof.
  intros H. induction p as [|c p IH]; [exact H|].
  change (String c p +:+ s)%string with (String c (p +:+ s)%string).
  cbn [Py.endswith]. rewrite IH. apply orb_true_r.
Qed.

(** C10.  On every dispatch the resolver is called on the prompt of line
    269, which is the fixed instruction followed by [full_question]: the
    fragments joined by single spaces and stripped, followed by a question
    mark when the stripped text does not end with one.  The question, and
    with it the prompt, therefore always ends with a question mark, and
    what the dispatch does is decided by the answer of the resolver to
    that very prompt. *)
Theorem dispatch_question_text (ext : collaborators) (b : buffer_data)
    (cd : gmap string Q) :
  let q := Py.strip (Py.join " " (collected_question b)) in
  let prompt :=
    ("Extract the city and country from the following question, comma separate it, it should be the only thing returned: "
     +:+ full_question b)%string in
  (Py.endswith "?" q = true ∧ full_question b = q
   ∨ Py.endswith "?" q = false ∧ full_question b = (q +:+ "?")%string)
  ∧ Py.endswith "?" (full_question b) = true
  ∧ (∃ p, full_question b = (p +:+ "?")%string)
  ∧ (∃ r rest b' cd',
       dispatch ext b cd
       = Return r (OpenAI (location_query (full_question b)) :: rest) b' cd')
  ∧ location_query (full_question b) = prompt
  ∧ Py.endswith (full_question b) prompt = true
  ∧ Py.endswith "?" prompt = true
  ∧ (length (Py.split "," (get_openai_response ext prompt)) ≠ 2%nat
     ∧ dispatch ext b cd = Return InvalidLocation [OpenAI prompt] b cd
     ∨ ∃ p0 p1,
         Py.split "," (get_openai_response ext prompt) = [p0; p1]
         ∧ dispatch ext b cd
           = Return
               (Forecast
                  (get_weather_forecast ext (Py.strip p0) (Py.strip p1)))
               [OpenAI prompt; WeatherForecast (Py.strip p0) (Py.strip p1)]
               (reset_states b) cd).
Proof.
  intros q prompt.
  assert (Hend : Py.endswith "?" (full_question b) = true).
  { unfold full_question. fold q.
    destruct (Py.endswith "?" q) eqn:E; [exact E | apply endswith_append]. }
  split; [|split; [|split; [|split; [|split; [|split; [|split]]]]]].
  - unfold full_question. fold q.
    destruct (Py.endswith "?" q); [left | right]; split; reflexivity.
  - exact Hend.
  - apply endswith_suffix, Hend.
  - destruct (dispatch_question_shape ext b cd) as (r & rest & b' & E).
    eauto.
  - reflexivity.
  - apply endswith_append.
  - apply endswith_after_prefix, Hend.
  - change prompt with (location_query (full_question b)).
    unfold dispatch.
    destruct (Py.split "," _) as [|p0 [|p1 [|p2 l]]];
      try (left; split; [discriminate | reflexivity]).
    right. by exists p0, p1.
Qed.

Example location_query_ex :
  location_query "weather in paris?"
  = "Extract the city and country from the following question, comma separate it, it should be the only thing returned: weather in paris?"%string.
Proof. reflexivity. Qed.

Example full_question_appends :
  full_question (append_question "in paris" (append_question "weather" collecting_100))
  = "weather in paris?"%string.
Proof. reflexivity. Qed.

Example full_question_keeps :
  full_question (append_question "weather in paris? " collecting_100)
  = "weather in paris?"%string.
Proof. reflexivity. Qed.

(** ** Forced closure (C2) *)

Lemma collect_after_window (now : Q) (txt : string) (b : buffer_data) :
  trigger_time b + QUESTION_AGGREGATION_TIME < now → collect now txt b = b.
Proof.
  intros H. unfold collect.
  replace (Qle_bool _ _) with false; [reflexivity|].
  symmetry. apply Qle_bool_false. lra.
Qed.

Lemma collect_in_window (now : Q) (txt : string) (b : buffer_data) :
  now - trigger_time b <= QUESTION_AGGREGATION_TIME →
  collect now txt b = append_question txt b.
Proof.
  intros H. unfold collect.
  replace (Qle_bool _ _) with true; [reflexivity|].
  symmetry. apply Qle_bool_iff. exact H.
Qed.

(** C2 does not hold as stated: a record confirmed at 100 with nothing
    collected, evaluated at 108 on the segment "hello", is not dispatched. *)
Lemma forced_closure_counterexample :
  ¬ (∀ (ext : collaborators) (sid : string) (now : Q) (s : segment)
       (b : buffer_data) (cd : gmap string Q),
        trigger_detected b = true → response_sent b = false →
        collected_question b = [] → trigger_time b + 7.5 < now →
        ∃ r calls b' cd',
          process_segment ext false sid now s b cd = Return r calls b' cd').
Proof.
  intros H.
  destruct (H ext_paris "s1"%string 108 (seg "hello") collecting_100 ∅)
    as (r & calls & b' & cd' & E); try reflexivity.
  vm_compute in E. discriminate E.
Qed.

(** C2, amended.  With a confirmed trigger and nothing collected, an
    evaluation later than 7.5s after the trigger makes [should_process]
    true, but the dispatch is guarded by a non-empty collection: whatever
    the segments of the request, none is collected, no call is made and
    the record is left as it was. *)
Theorem forced_closure_needs_fragment (ext : collaborators) (sid : string)
    (now : Q) (segs : list segment) (b : buffer_data) (cd : gmap string Q) :
  trigger_detected b = true → response_sent b = false →
  collected_question b = [] → trigger_time b + 7.5 < now →
  (∀ txt, collect now txt b = b ∧ should_process now txt b = true)
  ∧ process_segments ext false sid now segs b cd = (Success, [], b, cd).
Proof.
  intros Htd Hrs Hcq Ht.
  assert (Hc : ∀ txt, collect now txt b = b).
  { intros txt. apply collect_after_window.
    unfold QUESTION_AGGREGATION_TIME. lra. }
  assert (Hs : ∀ txt, should_process now txt b = true).
  { intros txt. unfold should_process.
    replace (Qgtb (now - trigger_time b) (QUESTION_AGGREGATION_TIME * 1.5))
      with true; [apply orb_true_r|].
    symmetry. apply Qgtb_true. unfold QUESTION_AGGREGATION_TIME. lra. }
  split; [intros txt; split; [apply Hc | apply Hs]|].
  assert (Hstage : ∀ txt, collect_stage ext false now txt b cd = Continue b cd).
  { intros txt. unfold collect_stage.
    rewrite Htd, Hrs. simpl. unfold ready_stage.
    rewrite Hc, Hcq. simpl. rewrite andb_false_r. reflexivity. }
  induction segs as [|s segs IH]; [reflexivity|].
  simpl. unfold process_segment.
  destruct (text s) as [raw|]; [|exact IH].
  destruct (Py.is_empty raw); simpl; [exact IH|].
  rewrite Htd, andb_false_r. simpl. rewrite Hstage. exact IH.
Qed.

Lemma forced_closure_needs_fragment_witness :
  (∀ txt, collect 108 txt collecting_100 = collecting_100
          ∧ should_process 108 txt collecting_100 = true)
  ∧ process_segments ext_paris false "s1" 108 [seg "hello"] collecting_100 ∅
    = (Success, [], collecting_100, ∅).
Proof.
  apply (forced_closure_needs_fragment ext_paris "s1" 108 [seg "hello"]
           collecting_100 ∅); reflexivity.
Defined.

(** ** The trigger branches of the loop body *)

Section TriggerBranches.

Variable ext : collaborators.
Variable sid : string.
Variable cd : gmap string Q.

(** Lines 164-187: a full wake phrase on an untriggered record. *)
Lemma full_phrase_confirms (now : Q) (raw : string) (b : buffer_data) :
  Py.is_empty raw = false →
  has_trigger_phrase (Py.strip (Py.lower raw)) = true →
  trigger_detected b = false →
  process_segment ext false sid now (seg raw) b cd
  = Continue (collect_question_part (Py.strip (Py.lower raw))
                (confirm_trigger now b))
             (<[sid := now]> cd).
Proof.
  intros Hraw Hfull Htd. unfold process_segment. simpl.
  rewrite Hraw, Hfull, Htd. reflexivity.
Qed.

(** Lines 192-198: the first half of the phrase ends the segment. *)
Lemma first_half_pends (now : Q) (raw : string) (b : buffer_data) :
  Py.is_empty raw = false →
  has_trigger_phrase (Py.strip (Py.lower raw)) = false →
  ends_with_first (Py.strip (Py.lower raw)) = true →
  trigger_detected b = false →
  process_segment ext false sid now (seg raw) b cd
  = Continue (set_partial_trigger_time now (set_partial_trigger true b)) cd.
Proof.
  intros Hraw Hfull Hfirst Htd. unfold process_segment. simpl.
  rewrite Hraw, Hfull, Htd, Hfirst. reflexivity.
Qed.

(** Lines 201-229: the second half within the window. *)
Lemma second_half_confirms (now : Q) (raw : string) (b : buffer_data) :
  Py.is_empty raw = false →
  has_trigger_phrase (Py.strip (Py.lower raw)) = false →
  ends_with_first (Py.strip (Py.lower raw)) = false →
  has_second (Py.strip (Py.lower raw)) = true →
  trigger_detected b = false → partial_trigger b = true →
  now - partial_trigger_time b <= 2 →
  process_segment ext false sid now (seg raw) b cd
  = Continue (collect_question_part (Py.strip (Py.lower raw))
                (confirm_trigger now b))
             cd.
Proof.
  intros Hraw Hfull Hfirst Hsecond Htd Hpt Hwin.
  unfold process_segment. simpl.
  rewrite Hraw, Hfull, Htd, Hfirst, Hpt, Hsecond. simpl.
  replace (Qle_bool _ _) with true; [reflexivity|].
  symmetry. apply Qle_bool_iff. lra.
Qed.

(** Lines 230-232: the window has passed. *)
Lemma second_half_too_late (now : Q) (raw : string) (b : buffer_data) :
  Py.is_empty raw = false →
  has_trigger_phrase (Py.strip (Py.lower raw)) = false →
  ends_with_first (Py.strip (Py.lower raw)) = false →
  trigger_detected b = false → partial_trigger b = true →
  2 < now - partial_trigger_time b →
  process_segment ext false sid now (seg raw) b cd
  = Continue (set_partial_trigger false b) cd.
Proof.
  intros Hraw Hfull Hfirst Htd Hpt Hwin.
  unfold process_segment. simpl.
  rewrite Hraw, Hfull, Htd, Hfirst, Hpt. simpl.
  replace (Qle_bool _ _) with false.
  - unfold collect_stage. simpl. rewrite Htd. reflexivity.
  - symmetry. apply Qle_bool_false. lra.
Qed.

(** Lines 164-167 and 190: on a triggered record neither trigger branch
    is entered, whatever the text. *)
Lemma triggered_goes_to_collection (now : Q) (raw : string)
    (b : buffer_data) :
  Py.is_empty raw = false →
  trigger_detected b = true →
  process_segment ext false sid now (seg raw) b cd
  = collect_stage ext false now (Py.strip (Py.lower raw)) b cd.
Proof.
  intros Hraw Htd. unfold process_segment. simpl.
  rewrite Hraw, Htd, andb_false_r. reflexivity.
Qed.

End TriggerBranches.

Lemma trigger_fields_of_question_part (txt : string) (b : buffer_data) :
  let b' := collect_question_part txt b in
  trigger_detected b' = trigger_detected b
  ∧ trigger_time b' = trigger_time b
  ∧ response_sent b' = response_sent b
  ∧ partial_trigger b' = partial_trigger b
  ∧ partial_trigger_time b' = partial_trigger_time b
  ∧ last_activity b' = last_activity b.
Proof.
  unfold collect_question_part.
  destruct (Py.is_empty (question_part txt)); simpl; repeat split.
Qed.

(** ** Confirmation across two segments and the cooldown (C4) *)

(** C4.  The code on the input C4 describes: on a record in
    PARTIAL_PENDING, a segment with a second-half fragment inside the 2.0s
    window confirms the trigger with the record of the full-phrase path,
    but the cooldowns are left as they were, whereas the full-phrase path
    on the same record stores the current time under the session. *)
Theorem partial_confirmation_skips_cooldown (ext : collaborators)
    (sid : string) (now : Q) (raw full : string) (b : buffer_data)
    (cd : gmap string Q) :
  Py.is_empty raw = false →
  has_trigger_phrase (Py.strip (Py.lower raw)) = false →
  ends_with_first (Py.strip (Py.lower raw)) = false →
  has_second (Py.strip (Py.lower raw)) = true →
  trigger_detected b = false → partial_trigger b = true →
  now - partial_trigger_time b <= 2 →
  Py.is_empty full = false →
  has_trigger_phrase (Py.strip (Py.lower full)) = true →
  process_segment ext false sid now (seg raw) b cd
  = Continue (collect_question_part (Py.strip (Py.lower raw))
                (confirm_trigger now b)) cd
  ∧ process_segment ext false sid now (seg full) b cd
    = Continue (collect_question_part (Py.strip (Py.lower full))
                  (confirm_trigger now b)) (<[sid := now]> cd).
Proof.
  intros. split.
  - by apply second_half_confirms.
  - by apply full_phrase_confirms.
Qed.

Lemma partial_confirmation_skips_cooldown_witness :
  process_segment ext_paris false "s1" 101 (seg "omi") partial_100 ∅
  = Continue (confirm_trigger 101 partial_100) ∅
  ∧ process_segment ext_paris false "s1" 101 (seg "hey omi") partial_100 ∅
    = Continue (confirm_trigger 101 partial_100) (<["s1"%string := 101]> ∅).
Proof.
  apply (partial_confirmation_skips_cooldown ext_paris "s1" 101 "omi"
           "hey omi" partial_100 ∅); try reflexivity.
  vm_compute. discriminate.
Defined.

(** ** A wake phrase split over two segments (C8) *)

(** C8 does not hold as stated, on three inputs: an idle record given
    "hey omi hey" (it ends with a first half, yet it is the full phrase
    that is taken); a pending record given "omi hey" one second later (it
    contains the second half, yet it is taken as a new first half); and a
    pending record given "hey omi" three seconds later (it contains the
    second half after the window, yet the trigger is confirmed). *)
Lemma split_wake_phrase_counterexample :
  (trigger_detected (fresh_buffer 100) = false
   ∧ ends_with_first "hey omi hey" = true
   ∧ ∃ b' cd',
       process_segment ext_paris false "s1" 100 (seg "hey omi hey")
                       (fresh_buffer 100) ∅ = Continue b' cd'
       ∧ partial_trigger b' = false)
  ∧ (phase_of partial_100 = PARTIAL_PENDING
     ∧ has_second "omi hey" = true
     ∧ 101 - partial_trigger_time partial_100 <= 2
     ∧ ∃ b' cd',
         process_segment ext_paris false "s1" 101 (seg "omi hey")
                         partial_100 ∅ = Continue b' cd'
         ∧ trigger_detected b' = false)
  ∧ (phase_of partial_100 = PARTIAL_PENDING
     ∧ has_second "hey omi" = true
     ∧ 2 < 103 - partial_trigger_time partial_100
     ∧ ∃ b' cd',
         process_segment ext_paris false "s1" 103 (seg "hey omi")
                         partial_100 ∅ = Continue b' cd'
         ∧ trigger_detected b' = true).
Proof.
  repeat split; try reflexivity; try (vm_compute; discriminate);
    eexists _, _; split; reflexivity.
Qed.

(** C8, amended.  On an untriggered record, a segment without a full wake
    phrase that ends with a first-half fragment sets [partial_trigger] and
    [partial_trigger_time] and collects nothing.  A following segment that
    contains a second-half fragment and does not end with a first-half
    fragment confirms the trigger when it comes within 2.0s; when it comes
    later and contains no full wake phrase, the record stays untriggered
    and [partial_trigger] is cleared. *)
Theorem split_wake_phrase (ext : collaborators) (sid : string) (t1 t2 : Q)
    (raw1 raw2 : string) (b : buffer_data) (cd : gmap string Q) :
  Py.is_empty raw1 = false → Py.is_empty raw2 = false →
  trigger_detected b = false →
  has_trigger_phrase (Py.strip (Py.lower raw1)) = false →
  ends_with_first (Py.strip (Py.lower raw1)) = true →
  has_second (Py.strip (Py.lower raw2)) = true →
  ends_with_first (Py.strip (Py.lower raw2)) = false →
  ∃ b1,
    process_segment ext false sid t1 (seg raw1) b cd = Continue b1 cd
    ∧ trigger_detected b1 = false
    ∧ partial_trigger b1 = true
    ∧ partial_trigger_time b1 = t1
    ∧ collected_question b1 = collected_question b
    ∧ (t2 - t1 <= 2 →
       ∃ b2 cd2,
         process_segment ext false sid t2 (seg raw2) b1 cd = Continue b2 cd2
         ∧ trigger_detected b2 = true
         ∧ trigger_time b2 = t2
         ∧ response_sent b2 = false
         ∧ partial_trigger b2 = false)
    ∧ (2 < t2 - t1 →
       has_trigger_phrase (Py.strip (Py.lower raw2)) = false →
       ∃ b2,
         process_segment ext false sid t2 (seg raw2) b1 cd = Continue b2 cd
         ∧ trigger_detected b2 = false
         ∧ partial_trigger b2 = false
         ∧ collected_question b2 = collected_question b).
Proof.
  intros Hraw1 Hraw2 Htd Hfull1 Hfirst1 Hsecond2 Hfirst2.
  exists (set_partial_trigger_time t1 (set_partial_trigger true b)).
  split; [by apply first_half_pends|].
  repeat split; try assumption.
  - intros Hwin.
    destruct (has_trigger_phrase (Py.strip (Py.lower raw2))) eqn:Hfull2.
    + eexists _, _. split; [by apply full_phrase_confirms|].
      pose proof (trigger_fields_of_question_part (Py.strip (Py.lower raw2))
                    (confirm_trigger t2
                       (set_partial_trigger_time t1
                          (set_partial_trigger true b)))) as H.
      simpl in H. destruct H as (-> & -> & -> & -> & _). by repeat split.
    + eexists _, _. split; [by apply second_half_confirms|].
      pose proof (trigger_fields_of_question_part (Py.strip (Py.lower raw2))
                    (confirm_trigger t2
                       (set_partial_trigger_time t1
                          (set_partial_trigger true b)))) as H.
      simpl in H. destruct H as (-> & -> & -> & -> & _). by repeat split.
  - intros Hlate Hfull2. eexists. split; [by apply second_half_too_late|].
    by repeat split.
Qed.

Lemma split_wake_phrase_witness :
  ∃ b1,
    process_segment ext_paris false "s1" 100 (seg "Hey,") (fresh_buffer 99) ∅
    = Continue b1 ∅
    ∧ trigger_detected b1 = false
    ∧ partial_trigger b1 = true
    ∧ partial_trigger_time b1 = 100
    ∧ collected_question b1 = []
    ∧ (101 - 100 <= 2 →
       ∃ b2 cd2,
         process_segment ext_paris false "s1" 101 (seg "Omi") b1 ∅
         = Continue b2 cd2
         ∧ trigger_detected b2 = true
         ∧ trigger_time b2 = 101
         ∧ response_sent b2 = false
         ∧ partial_trigger b2 = false)
    ∧ (2 < 101 - 100 →
       has_trigger_phrase (Py.strip (Py.lower "Omi")) = false →
       ∃ b2,
         process_segment ext_paris false "s1" 101 (seg "Omi") b1 ∅
         = Continue b2 ∅
         ∧ trigger_detected b2 = false
         ∧ partial_trigger b2 = false
         ∧ collected_question b2 = []).
Proof.
  apply (split_wake_phrase ext_paris "s1" 100 101 "Hey," "Omi"
           (fresh_buffer 99) ∅); reflexivity.
Defined.

(** ** A wake phrase heard while collecting (C9) *)

Lemma ready_stage_outcome (ext : collaborators) (now : Q) (txt : string)
    (b : buffer_data) (cd : gmap string Q) :
  match ready_stage ext now txt b cd with
  | Continue b' cd' => b' = b ∧ cd' = cd
  | Return _ _ b' cd' => (b' = b ∨ b' = reset_states b) ∧ cd' = cd
  end.
Proof.
  unfold ready_stage.
  destruct (should_process now txt b && nonempty (collected_question b));
    [|by split].
  unfold dispatch.
  destruct (Py.split "," _) as [|p0 [|p1 [|p2 l]]]; split; auto.
Qed.

(** C9.  On a record in COLLECTING a segment with a full wake phrase does
    not enter the trigger branch: it is handled by the collection stage.
    The record on which readiness is then evaluated keeps its
    [trigger_time] and, within the 5s window, has the segment appended to
    [collected_question] as any other text; the cooldowns are never
    written.  When the body of the loop ends without a dispatch the record
    is exactly that one; when the appended text makes the question ready,
    it is dispatched as usual (the record is that one after a failed
    extraction, and the reset one after a forecast). *)
Theorem wake_phrase_while_collecting (ext : collaborators) (sid : string)
    (now : Q) (raw : string) (b : buffer_data) (cd : gmap string Q) :
  Py.is_empty raw = false →
  has_trigger_phrase (Py.strip (Py.lower raw)) = true →
  trigger_detected b = true → response_sent b = false →
  let txt := Py.strip (Py.lower raw) in
  let b1 := collect now txt b in
  process_segment ext false sid now (seg raw) b cd = ready_stage ext now txt b1 cd
  ∧ trigger_detected b1 = true
  ∧ trigger_time b1 = trigger_time b
  ∧ (now - trigger_time b <= QUESTION_AGGREGATION_TIME →
     collected_question b1 = (collected_question b ++ [txt])%list)
  ∧ match process_segment ext false sid now (seg raw) b cd with
    | Continue b' cd' => b' = b1 ∧ cd' = cd
    | Return _ _ b' cd' => (b' = b1 ∨ b' = reset_states b1) ∧ cd' = cd
    end.
Proof.
  intros Hraw _ Htd Hrs txt b1.
  assert (E : process_segment ext false sid now (seg raw) b cd
              = ready_stage ext now txt b1 cd).
  { rewrite triggered_goes_to_collection by assumption.
    unfold collect_stage. rewrite Htd, Hrs. reflexivity. }
  split; [exact E|].
  split; [subst b1; unfold collect; by destruct (Qle_bool _ _)|].
  split; [subst b1; unfold collect; by destruct (Qle_bool _ _)|].
  split.
  - intros Hwin. subst b1. by rewrite collect_in_window.
  - rewrite E. apply ready_stage_outcome.
Qed.

Lemma wake_phrase_while_collecting_witness :
  process_segment ext_paris false "s1" 102 (seg "Hey Omi") collecting_100
                  (<["s1"%string := 100]> ∅)
  = Continue (append_question "hey omi" collecting_100)
             (<["s1"%string := 100]> ∅).
Proof.
  pose proof (wake_phrase_while_collecting ext_paris "s1" 102 "Hey Omi"
                collecting_100 (<["s1"%string := 100]> ∅)
                eq_refl eq_refl eq_refl eq_refl) as H.
  exact (proj1 H).
Defined.

(** ** A failed location extraction (C1) *)

(** The failure branch of [dispatch] returns without touching the record. *)
Lemma dispatch_invalid_location (ext : collaborators) (b : buffer_data)
    (cd : gmap string Q) :
  length (Py.split ","
            (get_openai_response ext (location_query (full_question b)))) ≠ 2%nat →
  dispatch ext b cd
  = Return InvalidLocation [OpenAI (location_query (full_question b))] b cd.
Proof.
  intros H. unfold dispatch.
  destruct (Py.split "," _) as [|p0 [|p1 [|p2 l]]]; try reflexivity.
  by destruct H.
Qed.

(** The success branch resets it. *)
Lemma dispatch_two_parts (ext : collaborators) (b : buffer_data)
    (cd : gmap string Q) (p0 p1 : string) :
  Py.split "," (get_openai_response ext (location_query (full_question b)))
  = [p0; p1] →
  dispatch ext b cd
  = Return (Forecast (get_weather_forecast ext (Py.strip p0) (Py.strip p1)))
           [OpenAI (location_query (full_question b));
            WeatherForecast (Py.strip p0) (Py.strip p1)]
           (reset_states b) cd.
Proof. intros H. unfold dispatch. by rewrite H. Qed.

(** ** The session store: sweep and lookup (C7) *)

Lemma cleanup_lookup (self : MessageBuffer) (now : Q) (sid : string) :
  buffers (cleanup_old_sessions self now) !! sid
  = match buffers self !! sid with
    | Some data => if expired now data then None else Some data
    | None => None
    end.
Proof.
  unfold cleanup_old_sessions. simpl.
  destruct (buffers self !! sid) as [data|] eqn:Hl.
  - destruct (expired now data) eqn:He.
    + apply map_lookup_filter_None. right. intros x Hx. simpl.
      rewrite Hl in Hx. injection Hx as <-. rewrite He. discriminate.
    + apply map_lookup_filter_Some. split; [exact Hl | exact He].
  - apply map_lookup_filter_None. by left.
Qed.

Lemma expired_iff (now : Q) (data : buffer_data) :
  expired now data = true ↔ 3600 < now - last_activity data.
Proof. unfold expired. apply Qgtb_true. Qed.

Lemma lookup_or_create_stored (self : MessageBuffer) (sid : string) (t : Q) :
  buffers (lookup_or_create self sid t).1 !! sid
  = Some (lookup_or_create self sid t).2.
Proof. unfold lookup_or_create. simpl. apply lookup_insert_eq. Qed.

Lemma lookup_or_create_other (self : MessageBuffer) (sid k : string) (t : Q) :
  sid ≠ k →
  buffers (lookup_or_create self sid t).1 !! k = buffers self !! k.
Proof. intros H. unfold lookup_or_create. simpl. by apply lookup_insert_ne. Qed.

Lemma get_buffer_stored (self : MessageBuffer) (sid : string) (t ts : Q) :
  buffers (get_buffer self sid t ts).1 !! sid = Some (get_buffer self sid t ts).2.
Proof. unfold get_buffer. apply lookup_or_create_stored. Qed.

Lemma get_buffer_absent (self : MessageBuffer) (sid : string) (t ts : Q) :
  buffers self !! sid = None →
  (get_buffer self sid t ts).2 = fresh_buffer t.
Proof.
  intros H. unfold get_buffer, lookup_or_create. simpl.
  destruct (cleanup_due self t); [rewrite cleanup_lookup|]; by rewrite H.
Qed.

Lemma get_buffer_present (self : MessageBuffer) (sid : string) (t ts : Q)
    (old : buffer_data) :
  buffers self !! sid = Some old →
  cleanup_due self t = false ∨ expired ts old = false →
  (get_buffer self sid t ts).2 = set_last_activity t old.
Proof.
  intros H Hkeep. unfold get_buffer, lookup_or_create. simpl.
  destruct (cleanup_due self t).
  - destruct Hkeep as [Hkeep|Hkeep]; [discriminate|].
    by rewrite cleanup_lookup, H, Hkeep.
  - by rewrite H.
Qed.

(** A record that comes back triggered was in the store before the call. *)
Lemma get_buffer_origin (self : MessageBuffer) (sid : string) (t ts : Q) :
  trigger_detected (get_buffer self sid t ts).2 = true →
  ∃ old, buffers self !! sid = Some old
         ∧ (get_buffer self sid t ts).2 = set_last_activity t old.
Proof.
  unfold get_buffer, lookup_or_create. simpl.
  destruct (cleanup_due self t).
  - rewrite cleanup_lookup.
    destruct (buffers self !! sid) as [old|]; [|discriminate].
    destruct (expired ts old); [discriminate|]. eauto.
  - destruct (buffers self !! sid) as [old|]; [|discriminate]. eauto.
Qed.

(** C7.  [cleanup_old_sessions] at [now] keeps exactly the records whose
    [last_activity] is at most 3600s before [now] (it removes those, and
    only those, that are more than 3600s old) and notes [now] as the time
    of the sweep; [get_buffer], on a store whose interval is the 300s it
    is created with, first runs the sweep exactly when more than 300s have
    passed since the last one and only then looks the session up or
    creates it. *)
Theorem sweep_and_lookup (self : MessageBuffer) (sid : string)
    (now t ts : Q) :
  cleanup_interval self = 300 →
  (∀ k data,
     buffers (cleanup_old_sessions self now) !! k = Some data
     ↔ buffers self !! k = Some data ∧ now - last_activity data <= 3600)
  ∧ (∀ k data,
       buffers self !! k = Some data → 3600 < now - last_activity data →
       buffers (cleanup_old_sessions self now) !! k = None)
  ∧ last_cleanup (cleanup_old_sessions self now) = now
  ∧ cleanup_interval (cleanup_old_sessions self now) = 300
  ∧ (300 < t - last_cleanup self →
     get_buffer self sid t ts
     = lookup_or_create (cleanup_old_sessions self ts) sid t)
  ∧ (t - last_cleanup self <= 300 →
     get_buffer self sid t ts = lookup_or_create self sid t).
Proof.
  intros Hint.
  split; [|split; [|split; [|split; [|split]]]].
  - intros k data. rewrite cleanup_lookup.
    destruct (buffers self !! k) as [d|]; [|by split; [|intros []]].
    destruct (expired now d) eqn:He.
    + split; [done|]. intros [[= ->] Hle].
      apply expired_iff in He. lra.
    + split.
      * intros [= ->]. split; [done|]. by apply Qgtb_false in He.
      * by intros [[= ->] _].
  - intros k data H Hold. rewrite cleanup_lookup, H.
    by replace (expired now data) with true
      by (symmetry; by apply expired_iff).
  - reflexivity.
  - exact Hint.
  - intros Hdue. unfold get_buffer.
    replace (cleanup_due self t) with true; [done|].
    symmetry. unfold cleanup_due. rewrite Hint. by apply Qgtb_true.
  - intros Hnot. unfold get_buffer.
    replace (cleanup_due self t) with false; [done|].
    symmetry. unfold cleanup_due. rewrite Hint. by apply Qgtb_false.
Qed.

Lemma sweep_and_lookup_witness :
  buffers (cleanup_old_sessions
             (lookup_or_create (MessageBuffer_init 0) "s1" 100).1 3800)
    !! "s1"%string = None
  ∧ get_buffer (lookup_or_create (MessageBuffer_init 0) "s1" 100).1 "s2" 3800 3801
    = lookup_or_create
        (cleanup_old_sessions
           (lookup_or_create (MessageBuffer_init 0) "s1" 100).1 3801)
        "s2" 3800.
Proof.
  pose proof (sweep_and_lookup
                (lookup_or_create (MessageBuffer_init 0) "s1" 100).1
                "s2" 3800 3800 3801 eq_refl) as (_ & Hgone & _ & _ & Hdue & _).
  split.
  - apply (Hgone "s1"%string (fresh_buffer 100)); reflexivity.
  - apply Hdue. reflexivity.
Defined.

(** C1.  The code at the failing input: a new session sends "hey omi" and
    a question in one request and the resolver answers without a comma.
    The question is ready and the resolver is called, the handler answers
    "Invalid location extracted", and the record is not reset: it stays
    triggered with the question collected and [response_sent] false,
    whereas with a two-part answer the same request resets it. *)
Theorem extraction_failure_keeps_collecting :
  let req := req_s1 ["hey omi"; "what's the weather?"]%string in
  let failed := webhook ext_no_location (initial_state 0) req 100 100 100 in
  let served := webhook ext_paris (initial_state 0) req 100 100 100 in
  failed.1 = (InvalidLocation, [OpenAI (location_query "what's the weather?")])
  ∧ buffers (message_buffer failed.2) !! "s1"%string
    = Some (append_question "what's the weather?" collecting_100)
  ∧ phase_of (append_question "what's the weather?" collecting_100) = COLLECTING
  ∧ response_sent (append_question "what's the weather?" collecting_100) = false
  ∧ served.1 = (Forecast "Sunny in Paris.",
                [OpenAI (location_query "what's the weather?");
                 WeatherForecast "Paris" "France"])
  ∧ buffers (message_buffer served.2) !! "s1"%string
    = Some (reset_states (append_question "what's the weather?" collecting_100)).
Proof. repeat split. Qed.

(** ** Cooldown suppression (C5) *)

Lemma cooldown_read_value (cd : gmap string Q) (sid : string) :
  (cooldown_read cd sid).1 = default 0 (cd !! sid).
Proof. unfold cooldown_read. by destruct (cd !! sid). Qed.

(** Reading the [defaultdict] changes no timestamp. *)
Lemma cooldown_read_keeps (cd : gmap string Q) (sid k : string) :
  default 0 ((cooldown_read cd sid).2 !! k) = default 0 (cd !! k).
Proof.
  unfold cooldown_read. destruct (cd !! sid) eqn:E; simpl; [done|].
  destruct (decide (sid = k)) as [->|Hne].
  - by rewrite lookup_insert_eq, E.
  - by rewrite lookup_insert_ne.
Qed.

(** C5.  When the record the handler obtains for the session is triggered
    and unanswered and less than 10s have passed since the session's
    cooldown timestamp, the request is answered with the plain success
    whatever its segments and whatever the collaborators would say: no call
    is made, the store is the one [get_buffer] left (the record being the
    stored one with only [last_activity] refreshed) and every cooldown
    timestamp is as before. *)
Theorem cooldown_suppresses_request (ext : collaborators) (st : state)
    (sid : string) (segs : list segment) (now tg ts : Q)
    (mb : MessageBuffer) (b : buffer_data) :
  Py.is_empty sid = false →
  get_buffer (message_buffer st) sid tg ts = (mb, b) →
  trigger_detected b = true → response_sent b = false →
  now - default 0 (notification_cooldowns st !! sid) < NOTIFICATION_COOLDOWN →
  ∃ st',
    webhook ext st {| session_id := Some sid; segments := segs |} now tg ts
    = (Success, [], st')
    ∧ message_buffer st' = mb
    ∧ buffers mb !! sid = Some b
    ∧ (∃ old, buffers (message_buffer st) !! sid = Some old
              ∧ b = set_last_activity tg old)
    ∧ ∀ k, default 0 (notification_cooldowns st' !! k)
           = default 0 (notification_cooldowns st !! k).
Proof.
  intros Hsid Hget Htd Hrs Hcool.
  exists {| message_buffer := mb;
            notification_cooldowns :=
              (cooldown_read (notification_cooldowns st) sid).2 |}.
  split.
  - unfold webhook. cbn [session_id segments]. rewrite Hsid, Hget.
    unfold cooldown_active. rewrite Htd, Hrs. cbn [andb negb].
    pose proof (cooldown_read_value (notification_cooldowns st) sid) as Hv.
    destruct (cooldown_read (notification_cooldowns st) sid) as [last cd1].
    simpl in Hv. subst last.
    replace (Qltb _ NOTIFICATION_COOLDOWN) with true; [done|].
    symmetry. by apply Qltb_true.
  - split; [done|]. split.
    + pose proof (get_buffer_stored (message_buffer st) sid tg ts) as H.
      by rewrite Hget in H.
    + split.
      * pose proof (get_buffer_origin (message_buffer st) sid tg ts) as H.
        rewrite Hget in H. by apply H.
      * intros k. simpl. apply cooldown_read_keeps.
Qed.

Lemma cooldown_suppresses_request_witness :
  let st := (webhook ext_paris (initial_state 0) (req_s1 ["hey omi"])
                     100 100 100).2 in
  ∃ st',
    webhook ext_paris st
            {| session_id := Some "s1"%string;
               segments := [seg "what's the weather in paris?"] |}
            103 103 103
    = (Success, [], st')
    ∧ message_buffer st' = (get_buffer (message_buffer st) "s1" 103 103).1
    ∧ buffers (get_buffer (message_buffer st) "s1" 103 103).1 !! "s1"%string
      = Some (set_last_activity 103 collecting_100)
    ∧ (∃ old, buffers (message_buffer st) !! "s1"%string = Some old
              ∧ set_last_activity 103 collecting_100
                = set_last_activity 103 old)
    ∧ ∀ k, default 0 (notification_cooldowns st' !! k)
           = default 0 (notification_cooldowns st !! k).
Proof.
  intros st.
  apply (cooldown_suppresses_request ext_paris st "s1"
           [seg "what's the weather in paris?"] 103 103 103
           (get_buffer (message_buffer st) "s1" 103 103).1
           (set_last_activity 103 collecting_100)); reflexivity.
Defined.

(** ** The handler, one delivery at a time *)

Lemma webhook_eq (ext : collaborators) (st : state) (sid : string)
    (segs : list segment) (now tg ts : Q) :
  Py.is_empty sid = false →
  webhook ext st {| session_id := Some sid; segments := segs |} now tg ts
  = let gb := get_buffer (message_buffer st) sid tg ts in
    let ca := cooldown_active now sid gb.2 (notification_cooldowns st) in
    if ca.1
    then (Success, [],
          {| message_buffer := gb.1; notification_cooldowns := ca.2 |})
    else
      let ps := process_segments ext false sid now segs gb.2 ca.2 in
      (ps.1.1.1, ps.1.1.2,
       {| message_buffer := store_buffer gb.1 sid ps.1.2;
          notification_cooldowns := ps.2 |}).
Proof.
  intros Hsid. unfold webhook. cbn [session_id segments]. rewrite Hsid.
  destruct (get_buffer _ _ _ _) as [mb b].
  destruct (cooldown_active _ _ _ _) as [[] cd]; cbn; [done|].
  by destruct (process_segments _ _ _ _ _ _ _) as [[[r c] b'] cd'].
Qed.

Lemma cooldown_active_untriggered (now : Q) (sid : string) (b : buffer_data)
    (cd : gmap string Q) :
  trigger_detected b = false → cooldown_active now sid b cd = (false, cd).
Proof. intros H. unfold cooldown_active. by rewrite H. Qed.

Lemma cooldown_active_recent (now last : Q) (sid : string) (b : buffer_data)
    (cd : gmap string Q) :
  trigger_detected b = true → response_sent b = false →
  cd !! sid = Some last → now - last < NOTIFICATION_COOLDOWN →
  cooldown_active now sid b cd = (true, cd).
Proof.
  intros Htd Hrs Hl Hlt. unfold cooldown_active, cooldown_read.
  rewrite Htd, Hrs, Hl. cbn.
  replace (Qltb _ _) with true; [done|]. symmetry. by apply Qltb_true.
Qed.

(** Clause (b) of [should_process]: something collected and a question
    mark in the segment. *)
Lemma should_process_question (now : Q) (txt : string) (b : buffer_data) :
  nonempty (collected_question b) = true → Py.contains "?" txt = true →
  should_process now txt b = true.
Proof.
  intros Hne Hq. unfold should_process. rewrite Hne, Hq. cbn.
  by rewrite orb_true_r.
Qed.

(** ** Trigger and question in two deliveries or in one (C3) *)

(** C3 does not hold as stated: after "hey omi" at 100, the question
    delivered at 101 is answered with the plain success, no call is made
    and nothing is collected. *)
Lemma later_delivery_counterexample :
  let q := "what's the weather in paris france?"%string in
  let first := webhook ext_paris (initial_state 0) (req_s1 ["hey omi"%string])
                       100 100 100 in
  let second := webhook ext_paris first.2 (req_s1 [q]) 101 101 101 in
  second.1 = (Success, [])
  ∧ buffers (message_buffer second.2) !! "s1"%string
    = Some (set_last_activity 101 collecting_100)
  ∧ collected_question (set_last_activity 101 collecting_100) = []
  ∧ collected_question (set_last_activity 101 collecting_100) ≠ [q].
Proof. repeat split. discriminate. Qed.

(** C3, amended.  For a session the store does not know yet, "hey omi" at
    [t0] confirms the trigger.  The question delivered at [t0 + 1] is then
    suppressed by the cooldown: plain success, no call, the record still
    triggered at [t0] with nothing collected.  Delivered in the same
    request as "hey omi", the question is collected as the single
    fragment, the record is ready and the dispatch is made on that text. *)
Theorem trigger_then_question (ext : collaborators) (st : state) (t0 : Q) :
  buffers (message_buffer st) !! "s1"%string = None →
  let q := "what's the weather in paris france?"%string in
  let confirmed := confirm_trigger t0 (fresh_buffer t0) in
  let cd1 := <["s1"%string := t0]> (notification_cooldowns st) in
  let first := webhook ext st (req_s1 ["hey omi"%string]) t0 t0 t0 in
  let second :=
    webhook ext first.2 (req_s1 [q]) (t0 + 1) (t0 + 1) (t0 + 1) in
  let both := webhook ext st (req_s1 ["hey omi"%string; q]) t0 t0 t0 in
  first.1 = (Success, [])
  ∧ buffers (message_buffer first.2) !! "s1"%string = Some confirmed
  ∧ second.1 = (Success, [])
  ∧ buffers (message_buffer second.2) !! "s1"%string
    = Some (set_last_activity (t0 + 1) confirmed)
  ∧ ∃ ready r rest b',
      ready = append_question q confirmed
      ∧ collected_question ready = [q]
      ∧ should_process t0 q ready = true
      ∧ full_question ready = q
      ∧ dispatch ext ready cd1
        = Return r (OpenAI (location_query q) :: rest) b' cd1
      ∧ both.1 = (r, OpenAI (location_query q) :: rest)
      ∧ buffers (message_buffer both.2) !! "s1"%string = Some b'.
Proof.
  intros Habs q confirmed cd1 first second both.
  assert (Hfresh : ∀ segs,
            webhook ext st (req_s1 segs) t0 t0 t0
            = let ps := process_segments ext false "s1" t0 (map seg segs)
                          (fresh_buffer t0) (notification_cooldowns st) in
              (ps.1.1.1, ps.1.1.2,
               {| message_buffer :=
                    store_buffer (get_buffer (message_buffer st) "s1" t0 t0).1
                                 "s1" ps.1.2;
                  notification_cooldowns := ps.2 |})).
  { intros segs. unfold req_s1. rewrite webhook_eq by reflexivity.
    cbn zeta. rewrite get_buffer_absent by exact Habs.
    by rewrite cooldown_active_untriggered. }
  assert (Hstep1 : process_segment ext false "s1" t0 (seg "hey omi")
                     (fresh_buffer t0) (notification_cooldowns st)
                   = Continue confirmed cd1).
  { by rewrite full_phrase_confirms. }
  assert (Hfirst : first
                   = (Success, [],
                      {| message_buffer :=
                           store_buffer
                             (get_buffer (message_buffer st) "s1" t0 t0).1
                             "s1" confirmed;
                         notification_cooldowns := cd1 |})).
  { subst first. rewrite Hfresh. cbn [map process_segments].
    by rewrite Hstep1. }
  split; [by rewrite Hfirst|].
  split; [rewrite Hfirst; apply lookup_insert_eq|].
  assert (Hsecond : second
                    = (Success, [],
                       {| message_buffer :=
                            (get_buffer (message_buffer first.2) "s1"
                                        (t0 + 1) (t0 + 1)).1;
                          notification_cooldowns := cd1 |})).
  { subst second. unfold req_s1. rewrite webhook_eq by reflexivity.
    cbn zeta.
    assert (Hgb : (get_buffer (message_buffer first.2) "s1"
                              (t0 + 1) (t0 + 1)).2
                  = set_last_activity (t0 + 1) confirmed).
    { apply get_buffer_present.
      - rewrite Hfirst. apply lookup_insert_eq.
      - right. apply Qgtb_false. simpl. lra. }
    rewrite Hgb, Hfirst. cbn [snd notification_cooldowns].
    rewrite (cooldown_active_recent (t0 + 1) t0); try done.
    - apply lookup_insert_eq.
    - unfold NOTIFICATION_COOLDOWN. lra. }
  split; [by rewrite Hsecond|].
  split.
  { rewrite Hsecond. cbn [snd message_buffer].
    rewrite get_buffer_stored. f_equal. apply get_buffer_present.
    - rewrite Hfirst. apply lookup_insert_eq.
    - right. apply Qgtb_false. simpl. lra. }
  assert (Hq : full_question (append_question q confirmed) = q)
    by reflexivity.
  assert (Hstep2 : process_segment ext false "s1" t0 (seg q) confirmed cd1
                   = dispatch ext (append_question q confirmed) cd1).
  { rewrite triggered_goes_to_collection by reflexivity.
    unfold collect_stage. cbn [confirmed confirm_trigger trigger_detected
                                 response_sent andb negb].
    rewrite collect_in_window
      by (simpl; unfold QUESTION_AGGREGATION_TIME; lra).
    change (Py.strip (Py.lower q)) with q.
    unfold ready_stage. by rewrite should_process_question. }
  pose proof (dispatch_question_shape ext (append_question q confirmed) cd1)
    as (r & rest & b' & Hd).
  rewrite Hq in Hd.
  exists (append_question q confirmed), r, rest, b'.
  split; [done|]. split; [done|].
  split; [by apply should_process_question|]. split; [done|].
  split; [exact Hd|].
  subst both. rewrite Hfresh. cbn [map process_segments].
  rewrite Hstep1, Hstep2, Hd. cbn.
  split; [done | apply lookup_insert_eq].
Qed.

Lemma trigger_then_question_witness :
  (webhook ext_paris
           (webhook ext_paris (initial_state 0) (req_s1 ["hey omi"%string])
                    100 100 100).2
           (req_s1 ["what's the weather in paris france?"%string])
           (100 + 1) (100 + 1) (100 + 1)).1
  = (Success, []).
Proof.
  exact (proj1 (proj2 (proj2
           (trigger_then_question ext_paris (initial_state 0) 100 eq_refl)))).
Defined.

(** ** Fragments imply a trigger (C6) *)

Lemma invariant_untriggered_empty (b : buffer_data) :
  collected_question b = [] → question_implies_trigger b.
Proof. intros H Hne. by destruct Hne. Qed.

Lemma invariant_triggered (b : buffer_data) :
  trigger_detected b = true → question_implies_trigger b.
Proof. by intros H _. Qed.

Lemma invariant_confirmed (now : Q) (txt : string) (b : buffer_data) :
  question_implies_trigger (collect_question_part txt (confirm_trigger now b)).
Proof.
  apply invariant_triggered.
  by destruct (trigger_fields_of_question_part txt (confirm_trigger now b))
    as (-> & _).
Qed.

Lemma invariant_dispatch (ext : collaborators) (b : buffer_data)
    (cd : gmap string Q) :
  trigger_detected b = true →
  question_implies_trigger (record_after (dispatch ext b cd)).
Proof.
  intros Htd. unfold dispatch.
  destruct (Py.split "," _) as [|p0 [|p1 [|p2 l]]]; simpl;
    try (by apply invariant_triggered).
  by apply invariant_untriggered_empty.
Qed.

Lemma invariant_collect_stage (ext : collaborators) (hp : bool) (now : Q)
    (txt : string) (b : buffer_data) (cd : gmap string Q) :
  question_implies_trigger b →
  question_implies_trigger (record_after (collect_stage ext hp now txt b cd)).
Proof.
  intros Hinv. unfold collect_stage.
  destruct (trigger_detected b) eqn:Htd; [|exact Hinv].
  destruct (response_sent b); [exact Hinv|].
  destruct hp; [exact Hinv|].
  cbn [andb negb].
  assert (Htd1 : trigger_detected (collect now txt b) = true).
  { unfold collect. by destruct (Qle_bool _ _). }
  unfold ready_stage.
  destruct (should_process _ _ _ && _).
  - by apply invariant_dispatch.
  - by apply invariant_triggered.
Qed.

(** Every turn of the loop keeps the invariant of the record. *)
Lemma invariant_process_segment (ext : collaborators) (hp : bool)
    (sid : string) (now : Q) (s : segment) (b : buffer_data)
    (cd : gmap string Q) :
  question_implies_trigger b →
  question_implies_trigger
    (record_after (process_segment ext hp sid now s b cd)).
Proof.
  intros Hinv. unfold process_segment.
  destruct (text s) as [raw|]; [|exact Hinv].
  destruct (Py.is_empty raw || hp); [exact Hinv|].
  destruct (has_trigger_phrase _ && _); [apply invariant_confirmed|].
  destruct (negb (trigger_detected b));
    [|by apply invariant_collect_stage].
  destruct (ends_with_first _); [exact Hinv|].
  destruct (partial_trigger b); [|by apply invariant_collect_stage].
  destruct (Qle_bool _ _).
  - destruct (has_second _);
      [apply invariant_confirmed | by apply invariant_collect_stage].
  - by apply invariant_collect_stage.
Qed.

Lemma invariant_process_segments (ext : collaborators) (hp : bool)
    (sid : string) (now : Q) (segs : list segment) (b : buffer_data)
    (cd : gmap string Q) :
  question_implies_trigger b →
  question_implies_trigger
    (process_segments ext hp sid now segs b cd).1.2.
Proof.
  revert b cd. induction segs as [|s segs IH]; intros b cd Hinv; [exact Hinv|].
  cbn [process_segments].
  pose proof (invariant_process_segment ext hp sid now s b cd Hinv) as Hstep.
  destruct (process_segment ext hp sid now s b cd) as [b' cd'|r c b' cd'].
  - by apply IH.
  - exact Hstep.
Qed.

Lemma invariant_get_buffer (self : MessageBuffer) (sid : string) (t ts : Q) :
  map_Forall (λ _ b, question_implies_trigger b) (buffers self) →
  map_Forall (λ _ b, question_implies_trigger b)
             (buffers (get_buffer self sid t ts).1)
  ∧ question_implies_trigger (get_buffer self sid t ts).2.
Proof.
  intros Hinv. unfold get_buffer.
  set (self1 := if cleanup_due self t then cleanup_old_sessions self ts
                else self).
  assert (H1 : map_Forall (λ _ b, question_implies_trigger b) (buffers self1)).
  { subst self1. destruct (cleanup_due self t); [|exact Hinv].
    intros k b Hk. rewrite cleanup_lookup in Hk.
    destruct (buffers self !! k) as [d|] eqn:Hd; [|done].
    destruct (expired ts d); [done|]. injection Hk as <-.
    by apply (Hinv k). }
  assert (H2 : question_implies_trigger (lookup_or_create self1 sid t).2).
  { unfold lookup_or_create. simpl.
    destruct (buffers self1 !! sid) as [old|] eqn:Hold.
    - exact (H1 sid old Hold).
    - by apply invariant_untriggered_empty. }
  split; [|exact H2].
  intros k b Hk. destruct (decide (sid = k)) as [<-|Hne].
  - rewrite lookup_or_create_stored in Hk. by injection Hk as <-.
  - rewrite lookup_or_create_other in Hk by done. by apply (H1 k).
Qed.

Lemma invariant_webhook (ext : collaborators) (st : state) (req : request)
    (now tg ts : Q) :
  store_invariant st → store_invariant (webhook ext st req now tg ts).2.
Proof.
  intros Hinv. destruct req as [[sid|] segs]; [|exact Hinv].
  destruct (Py.is_empty sid) eqn:Hsid.
  { unfold webhook. cbn [session_id]. by rewrite Hsid. }
  rewrite webhook_eq by exact Hsid. cbn zeta.
  destruct (invariant_get_buffer (message_buffer st) sid tg ts Hinv)
    as [Hstore Hrec].
  destruct (cooldown_active _ _ _ _) as [[] cd]; cbn; [exact Hstore|].
  intros k b Hk. unfold store_buffer in Hk. cbn in Hk.
  destruct (decide (sid = k)) as [<-|Hne].
  - rewrite lookup_insert_eq in Hk. injection Hk as <-.
    by apply invariant_process_segments.
  - rewrite lookup_insert_ne in Hk by done. by apply (Hstore k).
Qed.

Lemma invariant_run (ds : list delivery) (st : state) :
  store_invariant st → store_invariant (run st ds).
Proof.
  revert st. induction ds as [|d ds IH]; intros st Hinv; [exact Hinv|].
  cbn [run fold_left]. apply IH. by apply invariant_webhook.
Qed.

(** C6.  Whatever the deliveries a process has handled since it started,
    every record of the store that holds a fragment is triggered; and each
    turn of the loop over the segments, applied to a record with that
    property, leaves a record with it. *)
Theorem fragments_imply_trigger (t : Q) (ds : list delivery) :
  store_invariant (run (initial_state t) ds)
  ∧ ∀ ext hp sid now s b cd,
      question_implies_trigger b →
      question_implies_trigger
        (record_after (process_segment ext hp sid now s b cd)).
Proof.
  split.
  - apply invariant_run. intros k b Hk. cbn in Hk.
    by rewrite lookup_empty in Hk.
  - intros. by apply invariant_process_segment.
Qed.

Lemma fragments_imply_trigger_witness :
  ∃ b,
    buffers
      (message_buffer
         (run (initial_state 0)
              [{| d_request := req_s1 ["hey omi, what is"%string];
                  d_current_time := 100; d_get_time := 100;
                  d_sweep_time := 100; d_ext := ext_paris |}]))
      !! "s1"%string = Some b
    ∧ collected_question b = ["what is"%string]
    ∧ trigger_detected b = true.
Proof.
  pose proof
    (proj1 (fragments_imply_trigger 0
              [{| d_request := req_s1 ["hey omi, what is"%string];
                  d_current_time := 100; d_get_time := 100;
                  d_sweep_time := 100; d_ext := ext_paris |}])) as H.
  eexists. split; [reflexivity|]. split; [reflexivity|].
  apply (H "s1"%string _ eq_refl). discriminate.
Defined.

(** * Further properties of the handler *)

(** ** The shapes a turn of the loop can take *)

(** What [ready_stage] does to a record it is given. *)
Lemma ready_stage_cases (ext : collaborators) (now : Q) (txt : string)
    (b : buffer_data) (cd : gmap string Q) :
  ready_stage ext now txt b cd = Continue b cd
  ∨ collected_question b ≠ []
    ∧ should_process now txt b = true
    ∧ (length (Py.split ","
                 (get_openai_response ext (location_query (full_question b))))
       ≠ 2%nat
       ∧ ready_stage ext now txt b cd
         = Return InvalidLocation [OpenAI (location_query (full_question b))]
                  b cd
       ∨ ∃ p0 p1,
           Py.split ","
             (get_openai_response ext (location_query (full_question b)))
           = [p0; p1]
           ∧ ready_stage ext now txt b cd
             = Return
                 (Forecast
                    (get_weather_forecast ext (Py.strip p0) (Py.strip p1)))
                 [OpenAI (location_query (full_question b));
                  WeatherForecast (Py.strip p0) (Py.strip p1)]
                 (reset_states b) cd).
Proof.
  unfold ready_stage.
  destruct (should_process now txt b) eqn:Hs; [|by left].
  destruct (collected_question b) as [|x l] eqn:Hcq; [by left|].
  right. split; [done|]. split; [done|]. cbn [nonempty andb].
  unfold dispatch.
  destruct (Py.split "," _) as [|p0 [|p1 [|p2 l']]] eqn:Hsp;
    try (left; split; [discriminate | reflexivity]).
  right. by exists p0, p1.
Qed.

(** The branches of the loop body, read off lines 157-304. *)
Lemma process_segment_cases (ext : collaborators) (hp : bool) (sid : string)
    (now : Q) (s : segment) (b : buffer_data) (cd : gmap string Q) :
  process_segment ext hp sid now s b cd = Continue b cd
  ∨ trigger_detected b = false
    ∧ (∃ txt,
         has_trigger_phrase txt = true
         ∧ process_segment ext hp sid now s b cd
           = Continue (collect_question_part txt (confirm_trigger now b))
                      (<[sid := now]> cd))
  ∨ trigger_detected b = false
    ∧ process_segment ext hp sid now s b cd
      = Continue (set_partial_trigger_time now (set_partial_trigger true b)) cd
  ∨ trigger_detected b = false ∧ partial_trigger b = true
    ∧ (∃ txt,
         process_segment ext hp sid now s b cd
         = Continue (collect_question_part txt (confirm_trigger now b)) cd)
  ∨ trigger_detected b = false ∧ partial_trigger b = true
    ∧ process_segment ext hp sid now s b cd
      = Continue (set_partial_trigger false b) cd
  ∨ trigger_detected b = true ∧ response_sent b = false ∧ hp = false
    ∧ has_text s = true
    ∧ (∃ txt,
         process_segment ext hp sid now s b cd
         = ready_stage ext now txt (collect now txt b) cd).
Proof.
  unfold process_segment, has_text.
  destruct (text s) as [raw|]; [|by left].
  destruct (Py.is_empty raw) eqn:Hraw; [by left|].
  destruct hp; [by left|]. cbn [orb negb].
  set (txt := Py.strip (Py.lower raw)).
  destruct (trigger_detected b) eqn:Htd.
  - rewrite andb_false_r. cbn [negb]. unfold collect_stage. rewrite Htd.
    destruct (response_sent b) eqn:Hrs; [by left|]. cbn [andb negb].
    do 5 right. repeat split; try done. by exists txt.
  - rewrite andb_true_r. cbn [negb].
    destruct (has_trigger_phrase txt) eqn:Hfull.
    { right. left. split; [done|]. by exists txt. }
    destruct (ends_with_first txt).
    { do 2 right. left. by split. }
    destruct (partial_trigger b) eqn:Hpt.
    + destruct (Qle_bool _ _).
      * destruct (has_second txt).
        -- do 3 right. left. repeat split; try done. by exists txt.
        -- left. unfold collect_stage. by rewrite Htd.
      * do 4 right. left. repeat split; try done.
        unfold collect_stage. cbn. by rewrite Htd.
    + left. unfold collect_stage. by rewrite Htd.
Qed.

(** ** Properties of records kept by every delivery *)

Section RecordInvariant.

Variable P : buffer_data → Prop.
Hypothesis P_fresh : ∀ t, P (fresh_buffer t).
Hypothesis P_touch : ∀ t b, P b → P (set_last_activity t b).
Hypothesis P_step :
  ∀ ext hp sid now s b cd,
    P b → P (record_after (process_segment ext hp sid now s b cd)).

Lemma kept_by_process_segments (ext : collaborators) (hp : bool)
    (sid : string) (now : Q) (segs : list segment) (b : buffer_data)
    (cd : gmap string Q) :
  P b → P (process_segments ext hp sid now segs b cd).1.2.
Proof.
  revert b cd. induction segs as [|s segs IH]; intros b cd Hb; [exact Hb|].
  cbn [process_segments].
  pose proof (P_step ext hp sid now s b cd Hb) as Hs.
  destruct (process_segment ext hp sid now s b cd) as [b' cd'|r c b' cd'].
  - by apply IH.
  - exact Hs.
Qed.

Lemma kept_by_get_buffer (self : MessageBuffer) (sid : string) (t ts : Q) :
  map_Forall (λ _ b, P b) (buffers self) →
  map_Forall (λ _ b, P b) (buffers (get_buffer self sid t ts).1)
  ∧ P (get_buffer self sid t ts).2.
Proof.
  intros Hall. unfold get_buffer.
  set (self1 := if cleanup_due self t then cleanup_old_sessions self ts
                else self).
  assert (H1 : map_Forall (λ _ b, P b) (buffers self1)).
  { subst self1. destruct (cleanup_due self t); [|exact Hall].
    intros k b Hk. rewrite cleanup_lookup in Hk.
    destruct (buffers self !! k) as [d|] eqn:Hd; [|done].
    destruct (expired ts d); [done|]. injection Hk as <-.
    by apply (Hall k). }
  assert (H2 : P (lookup_or_create self1 sid t).2).
  { unfold lookup_or_create. cbn [snd].
    destruct (buffers self1 !! sid) as [old|] eqn:Hold.
    - apply P_touch. by apply (H1 sid).
    - apply P_fresh. }
  split; [|exact H2].
  intros k b Hk. destruct (decide (sid = k)) as [<-|Hne].
  - rewrite lookup_or_create_stored in Hk. by injection Hk as <-.
  - rewrite lookup_or_create_other in Hk by done. by apply (H1 k).
Qed.

Lemma kept_by_webhook (ext : collaborators) (st : state) (req : request)
    (now tg ts : Q) :
  map_Forall (λ _ b, P b) (buffers (message_buffer st)) →
  map_Forall (λ _ b, P b)
             (buffers (message_buffer (webhook ext st req now tg ts).2)).
Proof.
  intros Hall. destruct req as [[sid|] segs]; [|exact Hall].
  destruct (Py.is_empty sid) eqn:Hsid.
  { unfold webhook. cbn [session_id]. by rewrite Hsid. }
  rewrite webhook_eq by exact Hsid. cbn zeta.
  destruct (kept_by_get_buffer (message_buffer st) sid tg ts Hall)
    as [Hstore Hrec].
  destruct (cooldown_active _ _ _ _) as [[] cd]; cbn; [exact Hstore|].
  intros k b Hk.
  destruct (decide (sid = k)) as [<-|Hne].
  - rewrite lookup_insert_eq in Hk. injection Hk as <-.
    by apply kept_by_process_segments.
  - rewrite lookup_insert_ne in Hk by done. by apply (Hstore k).
Qed.

Lemma kept_by_run (ds : list delivery) (st : state) :
  map_Forall (λ _ b, P b) (buffers (message_buffer st)) →
  map_Forall (λ _ b, P b) (buffers (message_buffer (run st ds))).
Proof.
  revert st. induction ds as [|d ds IH]; intros st Hall; [exact Hall|].
  cbn [run fold_left]. apply IH. by apply kept_by_webhook.
Qed.

End RecordInvariant.

(** ** The shape of the records *)

Lemma well_formed_question_part (now : Q) (txt : string) (b : buffer_data) :
  messages b = [] →
  well_formed (collect_question_part txt (confirm_trigger now b)).
Proof.
  intros Hm. unfold collect_question_part.
  destruct (Py.is_empty _); by repeat split.
Qed.

Lemma well_formed_collect (now : Q) (txt : string) (b : buffer_data) :
  well_formed b → well_formed (collect now txt b).
Proof. unfold collect. by destruct (Qle_bool _ _). Qed.

Lemma well_formed_step (ext : collaborators) (hp : bool) (sid : string)
    (now : Q) (s : segment) (b : buffer_data) (cd : gmap string Q) :
  well_formed b →
  well_formed (record_after (process_segment ext hp sid now s b cd)).
Proof.
  intros Hwf. pose proof Hwf as (Hm & Ht & Hu).
  destruct (process_segment_cases ext hp sid now s b cd)
    as [-> | [(Htd & txt & _ & ->) | [(Htd & ->) | [(Htd & Hpt & txt & ->)
       | [(Htd & Hpt & ->) | (Htd & Hrs & _ & _ & txt & ->)]]]]];
    cbn [record_after].
  - exact Hwf.
  - by apply well_formed_question_part.
  - split; [done|]. split; cbn; [by rewrite Htd | done].
  - by apply well_formed_question_part.
  - split; [done|]. split; cbn; [by rewrite Htd | done].
  - pose proof (well_formed_collect now txt b Hwf) as Hwf1.
    destruct (ready_stage_cases ext now txt (collect now txt b) cd)
      as [-> | (_ & _ & [[_ ->] | (p0 & p1 & _ & ->)])]; cbn [record_after];
      try exact Hwf1.
    destruct Hwf1 as (Hm1 & _ & _). by repeat split.
Qed.

(** X1.  In every state a process can reach, each record is well formed:
    a triggered record is unanswered and has no pending first half, an
    untriggered record has trigger time 0, and [messages] is empty. *)
Theorem records_well_formed (t : Q) (ds : list delivery) :
  map_Forall (λ _ b, well_formed b)
             (buffers (message_buffer (run (initial_state t) ds))).
Proof.
  apply kept_by_run.
  - intros t'. by repeat split.
  - intros t' b Hwf. exact Hwf.
  - intros. by apply well_formed_step.
  - intros k b Hk. cbn in Hk. by rewrite lookup_empty in Hk.
Qed.

(** ** What a request can answer, call and leave behind *)

Lemma collect_keeps_flags (now : Q) (txt : string) (b : buffer_data) :
  trigger_detected (collect now txt b) = trigger_detected b
  ∧ response_sent (collect now txt b) = response_sent b
  ∧ trigger_time (collect now txt b) = trigger_time b
  ∧ partial_trigger (collect now txt b) = partial_trigger b.
Proof. unfold collect. by destruct (Qle_bool _ _). Qed.

Lemma process_segments_outcome (ext : collaborators) (hp : bool)
    (sid : string) (now : Q) (segs : list segment) (b : buffer_data)
    (cd : gmap string Q) :
  loop_outcome ext (process_segments ext hp sid now segs b cd).
Proof.
  revert b cd. induction segs as [|s segs IH]; intros b cd; [by left|].
  cbn [process_segments].
  destruct (process_segment_cases ext hp sid now s b cd)
    as [-> | [(_ & txt & _ & ->) | [(_ & ->) | [(_ & _ & txt & ->)
       | [(_ & _ & ->) | (Htd & Hrs & _ & _ & txt & ->)]]]]];
    try apply IH.
  destruct (collect_keeps_flags now txt b) as (Htd1 & Hrs1 & _).
  destruct (ready_stage_cases ext now txt (collect now txt b) cd)
    as [-> | (Hne & _ & [[Hlen ->] | (p0 & p1 & Hsp & ->)])]; [apply IH| |].
  - right. left. cbn. rewrite Htd1, Hrs1. by repeat split.
  - right. right. eexists _, p0, p1. cbn. by repeat split.
Qed.

(** X2.  Every request that names a session leaves a record for it and ends in
    one of three ways.  No dispatch: plain success and no call.  A dispatch
    whose resolver answer is not two comma-separated parts: the error
    answer after the single resolver call, the record still triggered and
    unanswered with the question that was sent.  A dispatch with two parts:
    the forecast for the stripped parts after one resolver call and one
    forecast call, the record reset and marked answered. *)
Theorem request_outcome (ext : collaborators) (st : state) (sid : string)
    (segs : list segment) (now tg ts : Q) :
  Py.is_empty sid = false →
  let out :=
    webhook ext st {| session_id := Some sid; segments := segs |} now tg ts in
  ∃ b' cd',
    buffers (message_buffer out.2) !! sid = Some b'
    ∧ loop_outcome ext (out.1, b', cd').
Proof.
  intros Hsid out. subst out. rewrite webhook_eq by exact Hsid. cbn zeta.
  destruct (cooldown_active _ _ _ _) as [[] cd]; cbn [fst snd].
  - exists (get_buffer (message_buffer st) sid tg ts).2, cd.
    split; [apply get_buffer_stored | by left].
  - pose proof (process_segments_outcome ext false sid now segs
                  (get_buffer (message_buffer st) sid tg ts).2 cd) as H.
    destruct (process_segments _ _ _ _ _ _ _) as [[[r c] b'] cd'].
    exists b', cd'. split; [apply lookup_insert_eq | exact H].
Qed.

Lemma request_outcome_witness :
  ∃ b' cd',
    buffers
      (message_buffer
         (webhook ext_no_location (initial_state 0)
                  {| session_id := Some "s1"%string;
                     segments := [seg "hey omi"; seg "weather?"] |}
                  100 100 100).2) !! "s1"%string = Some b'
    ∧ loop_outcome ext_no_location
        ((webhook ext_no_location (initial_state 0)
                  {| session_id := Some "s1"%string;
                     segments := [seg "hey omi"; seg "weather?"] |}
                  100 100 100).1, b', cd').
Proof.
  apply (request_outcome ext_no_location (initial_state 0) "s1"
           [seg "hey omi"; seg "weather?"] 100 100 100).
  reflexivity.
Defined.

Lemma named_session_is_served (ext : collaborators) (st : state)
    (sid : string) (segs : list segment) (now tg ts : Q) :
  Py.is_empty sid = false →
  (webhook ext st {| session_id := Some sid; segments := segs |}
           now tg ts).1.1 ≠ NoSessionId.
Proof.
  intros Hsid. rewrite webhook_eq by exact Hsid. cbn zeta.
  destruct (cooldown_active _ _ _ _) as [[] cd]; cbn [fst snd]; [done|].
  destruct (process_segments_outcome ext false sid now segs
              (get_buffer (message_buffer st) sid tg ts).2 cd)
    as [H | [(H & _) | (q & p0 & p1 & H & _)]];
    by rewrite (f_equal fst H).
Qed.

(** X3.  The answer "No session_id provided" is given exactly to the requests
    whose session identifier is missing or empty, and such a request
    changes nothing and calls nothing. *)
Theorem no_session_id_iff (ext : collaborators) (st : state) (req : request)
    (now tg ts : Q) :
  ((webhook ext st req now tg ts).1.1 = NoSessionId
   ↔ session_id req = None ∨ session_id req = Some ""%string)
  ∧ ((webhook ext st req now tg ts).1.1 = NoSessionId →
     webhook ext st req now tg ts = (NoSessionId, [], st)).
Proof.
  destruct req as [[sid|] segs].
  - destruct (Py.is_empty sid) eqn:Hsid.
    + destruct sid; [|discriminate]. split; [|done]. split; [by right|done].
    + pose proof (named_session_is_served ext st sid segs now tg ts Hsid)
        as Hne.
      split; [|done]. split; [done|].
      intros [H'|H']; [discriminate|]. injection H' as ->. discriminate.
  - split; [|done]. split; [by left|done].
Qed.

(** ** When a collecting record is dispatched *)

Lemma collect_stage_in_window (ext : collaborators) (now : Q) (txt : string)
    (b : buffer_data) (cd : gmap string Q) :
  trigger_detected b = true → response_sent b = false →
  now - trigger_time b <= QUESTION_AGGREGATION_TIME →
  collect_stage ext false now txt b cd
  = if Py.contains "?" txt
    then dispatch ext (append_question txt b) cd
    else Continue (append_question txt b) cd.
Proof.
  intros Htd Hrs Hwin.
  unfold collect_stage. rewrite Htd, Hrs. cbn [andb negb].
  rewrite collect_in_window by exact Hwin.
  unfold ready_stage, should_process.
  assert (Hne : nonempty (collected_question (append_question txt b)) = true).
  { cbn. by destruct (collected_question b). }
  rewrite Hne.
  replace (Qgtb (now - trigger_time (append_question txt b))
                QUESTION_AGGREGATION_TIME) with false
    by (symmetry; by apply Qgtb_false).
  replace (Qgtb (now - trigger_time (append_question txt b))
                (QUESTION_AGGREGATION_TIME * 1.5)) with false.
  - cbn [andb orb]. by destruct (Py.contains "?" txt).
  - symmetry. apply Qgtb_false. cbn [append_question trigger_time].
    unfold QUESTION_AGGREGATION_TIME in *. lra.
Qed.

(** X4.  Inside the 5s window an evaluated segment is always appended first, and
    the record is dispatched in that very turn exactly when the segment
    contains a question mark, whatever had been collected before. *)
Theorem in_window_dispatch_iff_question_mark (ext : collaborators)
    (sid : string) (now : Q) (raw : string) (b : buffer_data)
    (cd : gmap string Q) :
  Py.is_empty raw = false →
  trigger_detected b = true → response_sent b = false →
  now - trigger_time b <= QUESTION_AGGREGATION_TIME →
  let txt := Py.strip (Py.lower raw) in
  process_segment ext false sid now (seg raw) b cd
  = if Py.contains "?" txt
    then dispatch ext (append_question txt b) cd
    else Continue (append_question txt b) cd.
Proof.
  intros Hraw Htd Hrs Hwin txt.
  rewrite triggered_goes_to_collection by assumption.
  by apply collect_stage_in_window.
Qed.

Lemma in_window_dispatch_iff_question_mark_witness :
  process_segment ext_paris false "s1" 101 (seg "In Paris?") collecting_100 ∅
  = Return (Forecast "Sunny in Paris.")
           [OpenAI (location_query "in paris?");
            WeatherForecast "Paris" "France"]
           (reset_states (append_question "in paris?" collecting_100)) ∅
  ∧ process_segment ext_paris false "s1" 101 (seg "In Paris") collecting_100 ∅
    = Continue (append_question "in paris" collecting_100) ∅.
Proof.
  split.
  - apply (in_window_dispatch_iff_question_mark ext_paris "s1" 101 "In Paris?"
             collecting_100 ∅); try reflexivity.
    vm_compute. discriminate.
  - apply (in_window_dispatch_iff_question_mark ext_paris "s1" 101 "In Paris"
             collecting_100 ∅); try reflexivity.
    vm_compute. discriminate.
Defined.

Lemma collect_stage_after_window (ext : collaborators) (now : Q)
    (txt : string) (b : buffer_data) (cd : gmap string Q) :
  trigger_detected b = true → response_sent b = false →
  trigger_time b + QUESTION_AGGREGATION_TIME < now →
  collect_stage ext false now txt b cd
  = if nonempty (collected_question b)
    then dispatch ext b cd
    else Continue b cd.
Proof.
  intros Htd Hrs Hlate.
  unfold collect_stage. rewrite Htd, Hrs. cbn [andb negb].
  rewrite collect_after_window by exact Hlate.
  unfold ready_stage, should_process.
  replace (Qgtb (now - trigger_time b) QUESTION_AGGREGATION_TIME) with true
    by (symmetry; apply Qgtb_true; lra).
  destruct (nonempty (collected_question b)); cbn [andb orb]; [done|].
  by rewrite andb_false_r.
Qed.

(** X5.  Once the 5s window has passed, an evaluated segment is never
    collected: when fragments are held they are dispatched as they are,
    whatever the segment says, and when none is held nothing happens. *)
Theorem after_window_segment_is_dropped (ext : collaborators)
    (sid : string) (now : Q) (raw : string) (b : buffer_data)
    (cd : gmap string Q) :
  Py.is_empty raw = false →
  trigger_detected b = true → response_sent b = false →
  trigger_time b + QUESTION_AGGREGATION_TIME < now →
  process_segment ext false sid now (seg raw) b cd
  = if nonempty (collected_question b)
    then dispatch ext b cd
    else Continue b cd.
Proof.
  intros Hraw Htd Hrs Hlate.
  rewrite triggered_goes_to_collection by assumption.
  by apply collect_stage_after_window.
Qed.

Lemma after_window_segment_is_dropped_witness :
  process_segment ext_no_location false "s1" 106 (seg "in Paris, France?")
                  (append_question "weather" collecting_100) ∅
  = Return InvalidLocation [OpenAI (location_query "weather?")]
           (append_question "weather" collecting_100) ∅.
Proof.
  apply (after_window_segment_is_dropped ext_no_location "s1" 106
           "in Paris, France?" (append_question "weather" collecting_100) ∅);
    reflexivity.
Defined.

(** ** What an untriggered record does *)

(** X6.  A record that is not triggered is never dispatched by the segment it
    is given, not even by one that holds the wake phrase and a complete
    question: the turn ends without a call and leaves [response_sent]
    alone unless it confirms a trigger. *)
Theorem untriggered_turn_makes_no_call (ext : collaborators) (hp : bool)
    (sid : string) (now : Q) (s : segment) (b : buffer_data)
    (cd : gmap string Q) :
  trigger_detected b = false →
  ∃ b' cd',
    process_segment ext hp sid now s b cd = Continue b' cd'
    ∧ (trigger_detected b' = true ∧ trigger_time b' = now
       ∧ response_sent b' = false ∧ partial_trigger b' = false
       ∨ trigger_detected b' = false
         ∧ response_sent b' = response_sent b
         ∧ collected_question b' = collected_question b).
Proof.
  intros Htd.
  destruct (process_segment_cases ext hp sid now s b cd)
    as [-> | [(_ & txt & _ & ->) | [(_ & ->) | [(_ & _ & txt & ->)
       | [(_ & _ & ->) | (Htd' & _)]]]]];
    [| | | | |congruence]; eexists _, _; (split; [reflexivity|]).
  - right. by rewrite Htd.
  - left.
    destruct (trigger_fields_of_question_part txt (confirm_trigger now b))
      as (-> & -> & -> & -> & _). by repeat split.
  - right. cbn. by rewrite Htd.
  - left.
    destruct (trigger_fields_of_question_part txt (confirm_trigger now b))
      as (-> & -> & -> & -> & _). by repeat split.
  - right. cbn. by rewrite Htd.
Qed.

Lemma untriggered_turn_makes_no_call_witness :
  ∃ b' cd',
    process_segment ext_paris false "s1" 100
      (seg "Hey Omi, what's the weather in Paris?") (fresh_buffer 100) ∅
    = Continue b' cd'
    ∧ (trigger_detected b' = true ∧ trigger_time b' = 100
       ∧ response_sent b' = false ∧ partial_trigger b' = false
       ∨ trigger_detected b' = false
         ∧ response_sent b' = response_sent (fresh_buffer 100)
         ∧ collected_question b' = collected_question (fresh_buffer 100)).
Proof.
  apply (untriggered_turn_makes_no_call ext_paris false "s1" 100
           (seg "Hey Omi, what's the weather in Paris?") (fresh_buffer 100) ∅).
  reflexivity.
Defined.

(** X7.  Without a wake phrase nothing is recorded: on a record that is neither
    triggered nor waiting for a second half, a request whose segments
    contain no full wake phrase and do not end with a first half leaves
    the record and the cooldowns as they were and makes no call. *)
Theorem idle_ignores_ordinary_speech (ext : collaborators) (sid : string)
    (now : Q) (segs : list segment) (b : buffer_data) (cd : gmap string Q) :
  trigger_detected b = false → partial_trigger b = false →
  Forall (λ s, ∀ raw, text s = Some raw →
                 has_trigger_phrase (Py.strip (Py.lower raw)) = false
                 ∧ ends_with_first (Py.strip (Py.lower raw)) = false) segs →
  process_segments ext false sid now segs b cd = (Success, [], b, cd).
Proof.
  intros Htd Hpt Hall. induction Hall as [|s segs Hs _ IH]; [done|].
  cbn [process_segments].
  assert (E : process_segment ext false sid now s b cd = Continue b cd).
  { unfold process_segment. destruct (text s) as [raw|]; [|done].
    destruct (Hs raw eq_refl) as [Hfull Hfirst].
    destruct (Py.is_empty raw); [done|]. cbn [orb].
    rewrite Hfull, Htd, Hfirst, Hpt. cbn.
    unfold collect_stage. by rewrite Htd. }
  by rewrite E.
Qed.

Lemma idle_ignores_ordinary_speech_witness :
  process_segments ext_paris false "s1" 100
    [seg "what's the weather in Paris, France?"; seg "omi"]
    (reset_states collecting_100) ∅
  = (Success, [], reset_states collecting_100, ∅).
Proof.
  apply (idle_ignores_ordinary_speech ext_paris "s1" 100
           [seg "what's the weather in Paris, France?"; seg "omi"]
           (reset_states collecting_100) ∅); try reflexivity.
  constructor; [|constructor; [|constructor]];
    intros raw [= <-]; split; reflexivity.
Defined.

(** ** The loop over the segments *)

Lemma textless_segment_skipped (ext : collaborators) (hp : bool)
    (sid : string) (now : Q) (s : segment) (b : buffer_data)
    (cd : gmap string Q) :
  has_text s = false → process_segment ext hp sid now s b cd = Continue b cd.
Proof.
  unfold has_text, process_segment. destruct (text s) as [raw|]; [|done].
  by destruct (Py.is_empty raw).
Qed.

(** X8.  Segments without a ["text"], or with an empty one, play no part:
    leaving them out of the request gives the same answer, calls, record
    and cooldowns. *)
Theorem textless_segments_are_ignored (ext : collaborators) (hp : bool)
    (sid : string) (now : Q) (segs : list segment) (b : buffer_data)
    (cd : gmap string Q) :
  process_segments ext hp sid now (filter (λ s, has_text s = true) segs) b cd
  = process_segments ext hp sid now segs b cd.
Proof.
  revert b cd. induction segs as [|s segs IH]; intros b cd; [done|].
  destruct (has_text s) eqn:Hs.
  - rewrite filter_cons_True by done. cbn [process_segments].
    destruct (process_segment ext hp sid now s b cd); [apply IH | done].
  - rewrite filter_cons_False by (by rewrite Hs). cbn [process_segments].
    rewrite textless_segment_skipped by done. apply IH.
Qed.

(** X9.  The first dispatch ends the request: when the loop over some segments
    ends with an answer other than the plain success, whatever segments
    follow them in the request are not looked at. *)
Theorem first_dispatch_ends_request (ext : collaborators) (hp : bool)
    (sid : string) (now : Q) (segs rest : list segment) (b : buffer_data)
    (cd : gmap string Q) :
  (process_segments ext hp sid now segs b cd).1.1.1 ≠ Success →
  process_segments ext hp sid now (segs ++ rest) b cd
  = process_segments ext hp sid now segs b cd.
Proof.
  revert b cd. induction segs as [|s segs IH]; intros b cd H; [done|].
  cbn [process_segments app] in *.
  destruct (process_segment ext hp sid now s b cd); [by apply IH | done].
Qed.

Lemma first_dispatch_ends_request_witness :
  process_segments ext_paris false "s1" 100
    ([seg "hey omi"; seg "weather in Paris?"] ++ [seg "hey omi"; seg "and Rome?"])
    (fresh_buffer 100) ∅
  = process_segments ext_paris false "s1" 100
      [seg "hey omi"; seg "weather in Paris?"] (fresh_buffer 100) ∅.
Proof.
  apply (first_dispatch_ends_request ext_paris false "s1" 100
           [seg "hey omi"; seg "weather in Paris?"]
           [seg "hey omi"; seg "and Rome?"] (fresh_buffer 100) ∅).
  vm_compute. discriminate.
Defined.

(** ** What a request leaves alone *)

Lemma process_segment_cooldowns (ext : collaborators) (hp : bool)
    (sid : string) (now : Q) (s : segment) (b : buffer_data)
    (cd : gmap string Q) :
  match process_segment ext hp sid now s b cd with
  | Continue _ cd' | Return _ _ _ cd' => cd' = cd ∨ cd' = <[sid := now]> cd
  end.
Proof.
  destruct (process_segment_cases ext hp sid now s b cd)
    as [-> | [(_ & txt & _ & ->) | [(_ & ->) | [(_ & _ & txt & ->)
       | [(_ & _ & ->) | (_ & _ & _ & _ & txt & ->)]]]]]; auto.
  pose proof (ready_stage_outcome ext now txt (collect now txt b) cd) as H.
  destruct (ready_stage _ _ _ _ _); left; by destruct H.
Qed.

Lemma process_segments_cooldowns (ext : collaborators) (hp : bool)
    (sid : string) (now : Q) (segs : list segment) (b : buffer_data)
    (cd : gmap string Q) :
  (process_segments ext hp sid now segs b cd).2 = cd
  ∨ (process_segments ext hp sid now segs b cd).2 = <[sid := now]> cd.
Proof.
  revert b cd. induction segs as [|s segs IH]; intros b cd; [by left|].
  cbn [process_segments].
  pose proof (process_segment_cooldowns ext hp sid now s b cd) as H.
  destruct (process_segment ext hp sid now s b cd) as [b' cd'|r c b' cd'];
    [|exact H].
  destruct H as [-> | ->]; [apply IH|].
  destruct (IH b' (<[sid := now]> cd)) as [-> | ->]; [by right|].
  right. apply insert_insert_eq.
Qed.

Lemma cooldown_active_cooldowns (now : Q) (sid : string) (b : buffer_data)
    (cd : gmap string Q) :
  (cooldown_active now sid b cd).2 = cd
  ∨ cd !! sid = None ∧ (cooldown_active now sid b cd).2 = <[sid := 0]> cd.
Proof.
  unfold cooldown_active, cooldown_read.
  destruct (trigger_detected b && negb (response_sent b)); [|by left].
  destruct (cd !! sid); [by left | by right].
Qed.

Lemma webhook_cooldowns (ext : collaborators) (st : state) (sid : string)
    (segs : list segment) (now tg ts : Q) :
  Py.is_empty sid = false →
  notification_cooldowns
    (webhook ext st {| session_id := Some sid; segments := segs |}
             now tg ts).2
  = let b := (get_buffer (message_buffer st) sid tg ts).2 in
    let ca := cooldown_active now sid b (notification_cooldowns st) in
    if ca.1 then ca.2
    else (process_segments ext false sid now segs b ca.2).2.
Proof.
  intros Hsid. rewrite webhook_eq by exact Hsid. cbn zeta.
  by destruct (cooldown_active _ _ _ _).1.
Qed.

Lemma webhook_buffers (ext : collaborators) (st : state) (sid : string)
    (segs : list segment) (now tg ts : Q) :
  Py.is_empty sid = false →
  buffers
    (message_buffer
       (webhook ext st {| session_id := Some sid; segments := segs |}
                now tg ts).2)
  = let gb := get_buffer (message_buffer st) sid tg ts in
    let ca := cooldown_active now sid gb.2 (notification_cooldowns st) in
    if ca.1 then buffers gb.1
    else <[sid := (process_segments ext false sid now segs gb.2 ca.2).1.2]>
           (buffers gb.1).
Proof.
  intros Hsid. rewrite webhook_eq by exact Hsid. cbn zeta.
  by destruct (cooldown_active _ _ _ _).1.
Qed.

(** X10.  A request only writes the cooldown of its own session, and only with
    the time of the request (a wake phrase confirmed) or with the default
    0 of a first read; no cooldown entry is ever removed. *)
Theorem request_cooldowns (ext : collaborators) (st : state) (sid : string)
    (segs : list segment) (now tg ts : Q) :
  Py.is_empty sid = false →
  let cd := notification_cooldowns st in
  let cd' :=
    notification_cooldowns
      (webhook ext st {| session_id := Some sid; segments := segs |}
               now tg ts).2 in
  (∀ k, k ≠ sid → cd' !! k = cd !! k)
  ∧ (∀ k, is_Some (cd !! k) → is_Some (cd' !! k))
  ∧ (cd' !! sid = cd !! sid ∨ cd' !! sid = Some now
     ∨ cd !! sid = None ∧ cd' !! sid = Some 0).
Proof.
  intros Hsid cd cd'.
  assert (Hshape : cd' = cd ∨ cd' = <[sid := now]> cd
                   ∨ cd !! sid = None ∧ cd' = <[sid := 0]> cd).
  { subst cd'. rewrite webhook_cooldowns by exact Hsid. cbn zeta. fold cd.
    set (b := (get_buffer (message_buffer st) sid tg ts).2).
    destruct (cooldown_active_cooldowns now sid b cd) as [E | [Hnone E]];
      rewrite E.
    - destruct (cooldown_active now sid b cd).1; [by left|].
      destruct (process_segments_cooldowns ext false sid now segs b cd)
        as [-> | ->]; auto.
    - destruct (cooldown_active now sid b cd).1; [by right; right|].
      destruct (process_segments_cooldowns ext false sid now segs b
                  (<[sid := 0]> cd)) as [-> | ->]; [by right; right|].
      right. left. apply insert_insert_eq. }
  clearbody cd'.
  destruct Hshape as [-> | [-> | [Hnone ->]]].
  - split; [done|]. split; [done|]. by left.
  - split; [intros k Hk; by rewrite lookup_insert_ne|].
    split; [|right; left; apply lookup_insert_eq].
    intros k Hk. destruct (decide (sid = k)) as [<-|Hne].
    + rewrite lookup_insert_eq. eauto.
    + by rewrite lookup_insert_ne.
  - split; [intros k Hk; by rewrite lookup_insert_ne|].
    split; [|right; right; split; [done | apply lookup_insert_eq]].
    intros k Hk. destruct (decide (sid = k)) as [<-|Hne].
    + rewrite lookup_insert_eq. eauto.
    + by rewrite lookup_insert_ne.
Qed.

Lemma request_cooldowns_witness :
  notification_cooldowns
    (webhook ext_paris (initial_state 0) (req_s1 ["hey omi"%string])
             100 100 100).2 !! "s1"%string
  = Some 100.
Proof.
  destruct (request_cooldowns ext_paris (initial_state 0) "s1"
              [seg "hey omi"] 100 100 100 eq_refl)
    as (_ & _ & [H | [H | [_ H]]]).
  - vm_compute in H. discriminate H.
  - exact H.
  - vm_compute in H. discriminate H.
Defined.

(** X11.  A request never changes the record of another session: it is as it
    was, or it has been removed by the sweep the request started, being
    more than 3600s old. *)
Theorem request_leaves_other_sessions (ext : collaborators) (st : state)
    (sid : string) (segs : list segment) (now tg ts : Q) (k : string) :
  Py.is_empty sid = false → k ≠ sid →
  let before := buffers (message_buffer st) !! k in
  let after :=
    buffers
      (message_buffer
         (webhook ext st {| session_id := Some sid; segments := segs |}
                  now tg ts).2) !! k in
  after = before
  ∨ after = None
    ∧ cleanup_due (message_buffer st) tg = true
    ∧ ∃ data, before = Some data ∧ 3600 < ts - last_activity data.
Proof.
  intros Hsid Hk before after.
  assert (E : after
              = buffers (if cleanup_due (message_buffer st) tg
                         then cleanup_old_sessions (message_buffer st) ts
                         else message_buffer st) !! k).
  { subst after. rewrite webhook_buffers by exact Hsid. cbn zeta.
    destruct (cooldown_active _ _ _ _).1;
      [|rewrite lookup_insert_ne by done];
      unfold get_buffer; by rewrite lookup_or_create_other. }
  rewrite E. subst before.
  destruct (cleanup_due (message_buffer st) tg); [|by left].
  rewrite cleanup_lookup.
  destruct (buffers (message_buffer st) !! k) as [data|]; [|by left].
  destruct (expired ts data) eqn:He; [|by left].
  right. repeat split; try done. exists data. split; [done|].
  by apply expired_iff.
Qed.

Lemma request_leaves_other_sessions_witness :
  let st := (webhook ext_paris (initial_state 0) (req_s1 ["hey omi"%string])
                     100 100 100).2 in
  buffers
    (message_buffer
       (webhook ext_paris st
                {| session_id := Some "s2"%string;
                   segments := [seg "hey omi"] |} 200 200 200).2)
    !! "s1"%string
  = Some collecting_100.
Proof.
  intros st.
  destruct (request_leaves_other_sessions ext_paris st "s2" [seg "hey omi"]
              200 200 200 "s1" eq_refl) as [H | (_ & H & _)].
  - discriminate.
  - exact H.
  - vm_compute in H. discriminate H.
Defined.

(** ** More on the session store *)

(** X12.  [get_buffer] stamps the record it returns with the time it read, and a
    record stamped at [t] is still there after a sweep at any time up to
    3600s later. *)
Theorem touched_session_survives (self : MessageBuffer) (sid : string)
    (t ts now : Q) :
  now - t <= 3600 →
  last_activity (get_buffer self sid t ts).2 = t
  ∧ buffers (cleanup_old_sessions (get_buffer self sid t ts).1 now) !! sid
    = Some (get_buffer self sid t ts).2.
Proof.
  intros Hle.
  assert (Hla : last_activity (get_buffer self sid t ts).2 = t).
  { unfold get_buffer, lookup_or_create. cbn [snd]. by destruct (_ !! sid). }
  split; [exact Hla|].
  rewrite cleanup_lookup, get_buffer_stored.
  replace (expired now (get_buffer self sid t ts).2) with false; [done|].
  symmetry. apply Qgtb_false. by rewrite Hla.
Qed.

Lemma touched_session_survives_witness :
  last_activity (get_buffer (MessageBuffer_init 0) "s1" 100 100).2 = 100
  ∧ buffers (cleanup_old_sessions
               (get_buffer (MessageBuffer_init 0) "s1" 100 100).1 3700)
      !! "s1"%string
    = Some (get_buffer (MessageBuffer_init 0) "s1" 100 100).2.
Proof.
  apply (touched_session_survives (MessageBuffer_init 0) "s1" 100 100 3700).
  vm_compute. discriminate.
Defined.

Lemma expired_later (t1 t2 : Q) (data : buffer_data) :
  t1 <= t2 → expired t1 data = true → expired t2 data = true.
Proof. rewrite !expired_iff. lra. Qed.

(** X13.  A sweep followed by a later sweep is the later sweep alone; in
    particular sweeping twice at the same time changes nothing more. *)
Theorem sweeps_compose (self : MessageBuffer) (t1 t2 : Q) :
  t1 <= t2 →
  cleanup_old_sessions (cleanup_old_sessions self t1) t2
  = cleanup_old_sessions self t2.
Proof.
  intros Hle.
  assert (E : buffers (cleanup_old_sessions (cleanup_old_sessions self t1) t2)
              = buffers (cleanup_old_sessions self t2)).
  { apply map_eq. intros k. rewrite !cleanup_lookup.
    destruct (buffers self !! k) as [data|]; [|done].
    destruct (expired t1 data) eqn:H1; [|done].
    by rewrite (expired_later t1 t2 data Hle H1). }
  unfold cleanup_old_sessions in *. cbn in *. by rewrite E.
Qed.

Lemma sweeps_compose_witness :
  cleanup_old_sessions
    (cleanup_old_sessions (get_buffer (MessageBuffer_init 0) "s1" 100 100).1
                          3800) 3800
  = cleanup_old_sessions (get_buffer (MessageBuffer_init 0) "s1" 100 100).1
                         3800.
Proof.
  apply (sweeps_compose (get_buffer (MessageBuffer_init 0) "s1" 100 100).1
           3800 3800).
  vm_compute. discriminate.
Defined.

Lemma get_buffer_count (self : MessageBuffer) (sid : string) (t ts : Q) :
  (1 <= active_sessions (get_buffer self sid t ts).1
   <= S (active_sessions self))%nat
  ∧ (cleanup_due self t = false →
     active_sessions (get_buffer self sid t ts).1
     = match buffers self !! sid with
       | Some _ => active_sessions self
       | None => S (active_sessions self)
       end).
Proof.
  unfold get_buffer, active_sessions, lookup_or_create. cbn [fst buffers].
  split.
  - set (self1 := if cleanup_due self t then cleanup_old_sessions self ts
                  else self).
    assert (Hle : (size (buffers self1) <= size (buffers self))%nat).
    { subst self1. destruct (cleanup_due self t); [|done].
      apply map_size_filter. }
    rewrite map_size_insert.
    destruct (buffers self1 !! sid) eqn:Hl; cbn; [|lia].
    split; [|lia].
    destruct (decide (size (buffers self1) = 0%nat)) as [H0|]; [|lia].
    apply map_size_empty_iff in H0. rewrite H0 in Hl.
    by rewrite lookup_empty in Hl.
  - intros ->. rewrite map_size_insert. by destruct (buffers self !! sid).
Qed.

(** X14.  The session count of the status route after a request that names a
    session: at least one, at most one more than before; and when no sweep
    was due, one more for a session not seen before and the same
    otherwise. *)
Theorem request_session_count (ext : collaborators) (st : state)
    (sid : string) (segs : list segment) (now tg ts : Q) :
  Py.is_empty sid = false →
  let n := (status st now 0).1 in
  let n' :=
    (status (webhook ext st {| session_id := Some sid; segments := segs |}
                     now tg ts).2 now 0).1 in
  (1 <= n' <= S n)%nat
  ∧ (cleanup_due (message_buffer st) tg = false →
     n' = match buffers (message_buffer st) !! sid with
          | Some _ => n
          | None => S n
          end).
Proof.
  intros Hsid n n'.
  assert (E : n' = active_sessions
                     (get_buffer (message_buffer st) sid tg ts).1).
  { subst n'. unfold status, active_sessions. cbn [fst].
    rewrite webhook_buffers by exact Hsid. cbn zeta.
    destruct (cooldown_active _ _ _ _).1; [done|].
    apply map_size_insert_Some. rewrite get_buffer_stored. eauto. }
  rewrite E. apply get_buffer_count.
Qed.

Lemma request_session_count_witness :
  (status (webhook ext_paris (initial_state 0) (req_s1 ["hello"%string])
                   100 100 100).2 100 0).1
  = 1%nat.
Proof.
  destruct (request_session_count ext_paris (initial_state 0) "s1"
              [seg "hello"] 100 100 100 eq_refl) as [_ H].
  exact (H eq_refl).
Defined.

Lemma webhook_cleanup_interval (ext : collaborators) (st : state)
    (req : request) (now tg ts : Q) :
  cleanup_interval (message_buffer (webhook ext st req now tg ts).2)
  = cleanup_interval (message_buffer st).
Proof.
  destruct req as [[sid|] segs]; [|done].
  destruct (Py.is_empty sid) eqn:Hsid.
  { unfold webhook. cbn [session_id]. by rewrite Hsid. }
  rewrite webhook_eq by exact Hsid. cbn zeta.
  assert (H : cleanup_interval (get_buffer (message_buffer st) sid tg ts).1
              = cleanup_interval (message_buffer st)).
  { unfold get_buffer, lookup_or_create. cbn.
    by destruct (cleanup_due _ _). }
  by destruct (cooldown_active _ _ _ _).1.
Qed.

(** X15.  The sweep interval of a running process is always the 300s it was
    created with. *)
Theorem sweep_interval_constant (t : Q) (ds : list delivery) :
  cleanup_interval (message_buffer (run (initial_state t) ds)) = 300.
Proof.
  assert (H : ∀ st, cleanup_interval (message_buffer (run st ds))
                    = cleanup_interval (message_buffer st)).
  { induction ds as [|d ds IH]; intros st; [done|].
    cbn [run fold_left]. unfold run in IH. rewrite IH.
    apply webhook_cleanup_interval. }
  by rewrite H.
Qed.

(** ** Splitting and joining *)

Lemma append_cons (c : ascii) (s r : string) :
  (String c s +:+ r)%string = String c (s +:+ r)%string.
Proof. reflexivity. Qed.

Lemma append_nil_r (s : string) : (s +:+ "")%string = s.
Proof. induction s as [|c s IH]; [done|]. by rewrite append_cons, IH. Qed.

Lemma rev_app_append (a b s : string) :
  (String.rev_app a b +:+ s)%string = String.rev_app a (b +:+ s)%string.
Proof. revert b. induction a as [|c a IH]; intros b; [done|]. apply IH. Qed.

Lemma rev_cons_append (c : ascii) (cur s : string) :
  (String.rev (String c cur) +:+ s)%string
  = (String.rev cur +:+ String c s)%string.
Proof. unfold String.rev. cbn. by rewrite !rev_app_append. Qed.

Lemma startswith_append (sep s : string) :
  Py.startswith sep s = true → ∃ r, s = (sep +:+ r)%string.
Proof.
  revert s. induction sep as [|a sep IH]; intros s H; [by exists s|].
  destruct s as [|c s]; [discriminate|]. cbn in H.
  apply andb_true_iff in H as [Hc Hs]. apply Ascii.eqb_eq in Hc as ->.
  destruct (IH s Hs) as [r ->]. exists r. by rewrite append_cons.
Qed.

Lemma startswith_prefix (sep r : string) :
  Py.startswith sep (sep +:+ r)%string = true.
Proof.
  induction sep as [|a sep IH]; [done|].
  change (String a sep +:+ r)%string with (String a (sep +:+ r)%string).
  cbn [Py.startswith]. by rewrite Ascii.eqb_refl, IH.
Qed.

Lemma split_go_skip (sep p s cur : string) :
  Py.split_go sep (String.length p) cur (p +:+ s)%string
  = Py.split_go sep 0 cur s.
Proof.
  induction p as [|c p IH]; [done|]. rewrite append_cons. apply IH.
Qed.

Lemma split_go_nonempty (sep : string) (k : nat) (cur s : string) :
  Py.split_go sep k cur s ≠ [].
Proof.
  revert k cur. induction s as [|c s IH]; intros k cur; [done|].
  cbn. destruct k; [|apply IH].
  destruct (Py.startswith sep (String c s)); [done | apply IH].
Qed.

Lemma join_cons (sep x : string) (l : list string) :
  l ≠ [] → Py.join sep (x :: l) = (x +:+ sep +:+ Py.join sep l)%string.
Proof. by destruct l. Qed.

Lemma append_assoc (a b c : string) :
  ((a +:+ b) +:+ c)%string = (a +:+ (b +:+ c))%string.
Proof. induction a as [|x a IH]; [done|]. by rewrite !append_cons, IH. Qed.

Lemma length_append (a b : string) :
  String.length (a +:+ b)%string = (String.length a + String.length b)%nat.
Proof.
  induction a as [|x a IH]; [done|]. rewrite append_cons. cbn. by rewrite IH.
Qed.

(** [sep.join(s.split(sep)) == s] *)
Lemma join_split_go (sep : string) (n : nat) :
  sep ≠ ""%string →
  ∀ s cur, (String.length s <= n)%nat →
    Py.join sep (Py.split_go sep 0 cur s) = (String.rev cur +:+ s)%string.
Proof.
  intros Hsep. induction n as [|n IH]; intros s cur Hn.
  - destruct s; [|cbn in Hn; lia]. cbn. by rewrite append_nil_r.
  - destruct s as [|c s].
    { cbn. by rewrite append_nil_r. }
    cbn [Py.split_go]. destruct (Py.startswith sep (String c s)) eqn:Hst.
    + destruct (startswith_append _ _ Hst) as [r Hr].
      destruct sep as [|a sep']; [done|]. rewrite append_cons in Hr.
      injection Hr as -> ->.
      replace (String.length (String a sep') - 1)%nat
        with (String.length sep') by (cbn; lia).
      rewrite split_go_skip.
      rewrite join_cons by apply split_go_nonempty.
      rewrite IH.
      * done.
      * cbn in Hn. rewrite length_append in Hn. lia.
    + rewrite IH by (cbn in Hn; lia). apply rev_cons_append.
Qed.

Lemma join_split (sep s : string) :
  sep ≠ ""%string → Py.join sep (Py.split sep s) = s.
Proof.
  intros Hsep. unfold Py.split.
  by rewrite (join_split_go sep (String.length s) Hsep s ""%string).
Qed.

(** [len(s.split(","))] is one more than the number of commas. *)
Lemma length_split_comma (s : string) :
  length (Py.split "," s) = S (count_char "," s).
Proof.
  assert (H : ∀ cur, length (Py.split_go "," 0 cur s) = S (count_char "," s)).
  { induction s as [|c s IH]; intros cur; [done|].
    cbn [Py.split_go Py.startswith String.length Nat.sub count_char].
    destruct (Ascii.eqb "," c) eqn:E.
    - apply Ascii.eqb_eq in E as <-. cbn. by rewrite IH.
    - rewrite Ascii.eqb_sym, E. cbn. apply IH. }
  apply H.
Qed.

Lemma split_comma_two (s : string) :
  (∃ p0 p1, Py.split "," s = [p0; p1]) ↔ count_char "," s = 1%nat.
Proof.
  pose proof (length_split_comma s) as H. split.
  - intros (p0 & p1 & E). rewrite E in H. cbn in H. lia.
  - intros E. rewrite E in H.
    destruct (Py.split "," s) as [|p0 [|p1 [|p2 l]]]; try discriminate.
    by exists p0, p1.
Qed.

(** ** Lower case, whitespace and the marker "omi," *)

Lemma lower_char_idem (c : ascii) :
  Py.lower_char (Py.lower_char c) = Py.lower_char c.
Proof. by destruct c as [[] [] [] [] [] [] [] []]. Qed.

Lemma isspace_lower_char (c : ascii) :
  Py.isspace (Py.lower_char c) = Py.isspace c.
Proof. by destruct c as [[] [] [] [] [] [] [] []]. Qed.

Lemma lower_idem (s : string) : Py.lower (Py.lower s) = Py.lower s.
Proof.
  induction s as [|c s IH]; [done|]. cbn. by rewrite lower_char_idem, IH.
Qed.

Lemma lower_is_empty (s : string) : Py.is_empty (Py.lower s) = Py.is_empty s.
Proof. by destruct s. Qed.

Lemma lower_append (a b : string) :
  Py.lower (a +:+ b)%string = (Py.lower a +:+ Py.lower b)%string.
Proof.
  induction a as [|c a IH]; [done|]. rewrite append_cons. cbn.
  by rewrite IH.
Qed.

Lemma lower_lstrip (s : string) : Py.lower (Py.lstrip s) = Py.lstrip (Py.lower s).
Proof.
  induction s as [|c s IH]; [done|]. cbn. rewrite isspace_lower_char.
  by destruct (Py.isspace c).
Qed.

Lemma lower_rstrip (s : string) : Py.lower (Py.rstrip s) = Py.rstrip (Py.lower s).
Proof.
  induction s as [|c s IH]; [done|]. cbn.
  rewrite isspace_lower_char, <- IH, lower_is_empty.
  by destruct (Py.isspace c && Py.is_empty (Py.rstrip s)).
Qed.

Lemma lower_strip (s : string) : Py.lower (Py.strip s) = Py.strip (Py.lower s).
Proof. unfold Py.strip. by rewrite lower_rstrip, lower_lstrip. Qed.

(** The text the loop works on is in lower case. *)
Lemma lower_text (raw : string) :
  Py.lower (Py.strip (Py.lower raw)) = Py.strip (Py.lower raw).
Proof. by rewrite lower_strip, lower_idem. Qed.

Lemma contains_append (sep pre rest : string) :
  Py.contains sep (pre +:+ sep +:+ rest)%string = true.
Proof.
  induction pre as [|c pre IH].
  - change ("" +:+ sep +:+ rest)%string with (sep +:+ rest)%string.
    destruct (sep +:+ rest)%string eqn:E; cbn; rewrite <- E;
      by rewrite startswith_prefix.
  - rewrite append_cons. cbn [Py.contains]. rewrite IH. apply orb_true_r.
Qed.

Lemma contains_false_inv (sep : string) (c : ascii) (s : string) :
  Py.contains sep (String c s) = false →
  Py.startswith sep (String c s) = false ∧ Py.contains sep s = false.
Proof. cbn [Py.contains]. intros H. by apply orb_false_iff in H. Qed.

Lemma split_go_no_occurrence (sep cur s : string) :
  Py.contains sep s = false →
  Py.split_go sep 0 cur s = [(String.rev cur +:+ s)%string].
Proof.
  revert cur. induction s as [|c s IH]; intros cur H.
  - cbn. by rewrite append_nil_r.
  - apply contains_false_inv in H as [Hst Hs]. cbn [Py.split_go].
    rewrite Hst, IH by exact Hs. by rewrite rev_cons_append.
Qed.

Lemma last_piece_cons (x : string) (l : list string) :
  l ≠ [] → Py.last_piece (x :: l) = Py.last_piece l.
Proof. by destruct l. Qed.

Lemma split_go_marker_head (cur r : string) :
  Py.split_go "omi," 0 cur
    (String "o" (String "m" (String "i" (String "," r))))
  = String.rev cur :: Py.split_go "omi," 0 "" r.
Proof. reflexivity. Qed.

(** [s.split("omi,")[-1]] is what follows the last "omi,". *)
Lemma last_piece_after_marker (n : nat) :
  ∀ pre rest cur,
    (String.length pre <= n)%nat →
    Py.contains "omi," rest = false →
    Py.last_piece
      (Py.split_go "omi," 0 cur (pre +:+ "omi," +:+ rest)%string)
    = rest.
Proof.
  assert (Hbase : ∀ rest cur,
            Py.contains "omi," rest = false →
            Py.last_piece
              (Py.split_go "omi," 0 cur ("" +:+ "omi," +:+ rest)%string)
            = rest).
  { intros rest cur Hrest.
    change ("" +:+ "omi," +:+ rest)%string
      with (String "o" (String "m" (String "i" (String "," rest)))).
    rewrite split_go_marker_head, split_go_no_occurrence by exact Hrest.
    reflexivity. }
  induction n as [|n IH]; intros pre rest cur Hn Hrest.
  - destruct pre; [by apply Hbase | cbn in Hn; lia].
  - destruct pre as [|c pre]; [by apply Hbase|].
    rewrite append_cons.
    destruct (Py.startswith "omi," (String c (pre +:+ "omi," +:+ rest)))
      eqn:Hst.
    + destruct pre as [|x [|y [|z pre]]];
        try (cbn in Hst; by repeat (apply andb_true_iff in Hst as [? Hst])).
      rewrite !append_cons in *. cbn [Py.startswith] in Hst.
      apply andb_true_iff in Hst as [Hc Hst].
      apply andb_true_iff in Hst as [Hx Hst].
      apply andb_true_iff in Hst as [Hy Hst].
      apply andb_true_iff in Hst as [Hz _].
      apply Ascii.eqb_eq in Hc as <-, Hx as <-, Hy as <-, Hz as <-.
      rewrite split_go_marker_head.
      rewrite last_piece_cons by apply split_go_nonempty.
      apply IH; [cbn in Hn; lia | exact Hrest].
    + cbn [Py.split_go]. rewrite Hst.
      apply IH; [cbn in Hn; lia | exact Hrest].
Qed.

Lemma question_part_after_marker (pre rest : string) :
  Py.contains "omi," rest = false →
  question_part (pre +:+ "omi," +:+ rest)%string = Py.strip rest.
Proof.
  intros Hrest. unfold question_part.
  rewrite !lower_append, contains_append. unfold Py.split.
  by rewrite (last_piece_after_marker (String.length pre)).
Qed.

(** ** Which locations are accepted *)

(** X16.  A dispatch asks for a forecast exactly when the answer of the resolver
    holds one comma: the city is what precedes it and the country what
    follows, both stripped, and the record is reset.  With no comma or
    with several the error answer is given and the record is left as it
    is. *)
Theorem location_needs_one_comma (ext : collaborators) (b : buffer_data)
    (cd : gmap string Q) :
  let query := location_query (full_question b) in
  let answer := get_openai_response ext query in
  (count_char "," answer = 1%nat →
   ∃ p0 p1,
     answer = (p0 +:+ "," +:+ p1)%string
     ∧ dispatch ext b cd
       = Return (Forecast (get_weather_forecast ext (Py.strip p0) (Py.strip p1)))
                [OpenAI query; WeatherForecast (Py.strip p0) (Py.strip p1)]
                (reset_states b) cd)
  ∧ (count_char "," answer ≠ 1%nat →
     dispatch ext b cd = Return InvalidLocation [OpenAI query] b cd).
Proof.
  intros query answer. split.
  - intros H1. apply split_comma_two in H1 as (p0 & p1 & Hsp).
    exists p0, p1. split.
    + rewrite <- (join_split "," answer) by done. by rewrite Hsp.
    + by apply dispatch_two_parts.
  - intros Hn. apply dispatch_invalid_location. fold query answer.
    rewrite length_split_comma. lia.
Qed.

(** X17.  The weather route and the webhook treat a location alike: for a
    non-empty text, what GET /weather answers for it decides what a
    dispatch does when the resolver returns that text (the same forecast
    from the same forecast call, or the rejection). *)
Theorem weather_route_matches_dispatch (ext : collaborators)
    (b : buffer_data) (cd : gmap string Q) (loc : string) :
  Py.is_empty loc = false →
  get_openai_response ext (location_query (full_question b)) = loc →
  match get_weather ext (Some loc) with
  | (ForecastFor f, calls) =>
      count_char "," loc = 1%nat
      ∧ dispatch ext b cd
        = Return (Forecast f)
                 (OpenAI (location_query (full_question b)) :: calls)
                 (reset_states b) cd
  | (InvalidFormat, calls) =>
      count_char "," loc ≠ 1%nat ∧ calls = []
      ∧ dispatch ext b cd
        = Return InvalidLocation [OpenAI (location_query (full_question b))]
                 b cd
  | (LocationRequired, _) => False
  end.
Proof.
  intros Hloc Hans. unfold get_weather, dispatch. rewrite Hloc, Hans.
  pose proof (length_split_comma loc) as Hlen.
  destruct (Py.split "," loc) as [|p0 [|p1 [|p2 l]]]; cbn in Hlen;
    repeat split; try done; lia.
Qed.

Lemma weather_route_matches_dispatch_witness :
  dispatch ext_paris (append_question "weather in paris?" collecting_100) ∅
  = Return (Forecast "Sunny in Paris.")
           [OpenAI (location_query "weather in paris?");
            WeatherForecast "Paris" "France"]
           (reset_states (append_question "weather in paris?" collecting_100))
           ∅.
Proof.
  exact (proj2 (weather_route_matches_dispatch ext_paris
                  (append_question "weather in paris?" collecting_100) ∅
                  "Paris, France" eq_refl eq_refl)).
Defined.

(** X18.  When the call to the language model fails, its fallback message holds
    one comma and is therefore taken as a location: the forecast is asked
    for the city "I'm sorry", its answer is returned as the forecast and
    the record is reset. *)
Theorem fallback_message_is_taken_as_location (ext : collaborators)
    (b : buffer_data) (cd : gmap string Q) :
  get_openai_response ext (location_query (full_question b))
  = OPENAI_FALLBACK →
  dispatch ext b cd
  = Return
      (Forecast
         (get_weather_forecast ext "I'm sorry"
            "I encountered an error processing your request."))
      [OpenAI (location_query (full_question b));
       WeatherForecast "I'm sorry"
         "I encountered an error processing your request."]
      (reset_states b) cd.
Proof.
  intros H.
  by rewrite (dispatch_two_parts ext b cd "I'm sorry"
                " I encountered an error processing your request.")
    by (by rewrite H).
Qed.

Lemma fallback_message_is_taken_as_location_witness :
  dispatch ext_fallback (append_question "weather in paris?" collecting_100) ∅
  = Return (Forecast "Location not found")
           [OpenAI (location_query "weather in paris?");
            WeatherForecast "I'm sorry"
              "I encountered an error processing your request."]
           (reset_states (append_question "weather in paris?" collecting_100))
           ∅.
Proof.
  apply (fallback_message_is_taken_as_location ext_fallback
           (append_question "weather in paris?" collecting_100) ∅).
  reflexivity.
Defined.

(** ** The text taken from the segment that confirms the trigger *)

(** X19.  On an untriggered record, a segment with a full wake phrase starts the
    collection with the text that follows the last "omi," of the segment,
    stripped, when there is some; when the segment holds no "omi," (the
    phrase said without the comma) nothing of it is collected, whatever
    follows the phrase. *)
Theorem trailing_question_is_collected (ext : collaborators) (sid : string)
    (now : Q) (raw : string) (b : buffer_data) (cd : gmap string Q) :
  Py.is_empty raw = false →
  trigger_detected b = false →
  has_trigger_phrase (Py.strip (Py.lower raw)) = true →
  let txt := Py.strip (Py.lower raw) in
  (Py.contains "omi," txt = false →
   process_segment ext false sid now (seg raw) b cd
   = Continue (confirm_trigger now b) (<[sid := now]> cd))
  ∧ (∀ pre rest,
       txt = (pre +:+ "omi," +:+ rest)%string →
       Py.contains "omi," rest = false →
       process_segment ext false sid now (seg raw) b cd
       = Continue
           (if Py.is_empty (Py.strip rest) then confirm_trigger now b
            else append_question (Py.strip rest) (confirm_trigger now b))
           (<[sid := now]> cd)).
Proof.
  intros Hraw Htd Hfull txt.
  rewrite full_phrase_confirms by assumption. fold txt.
  unfold collect_question_part. split.
  - intros Hno. unfold question_part. subst txt.
    by rewrite lower_text, Hno.
  - intros pre rest E Hrest. rewrite E.
    by rewrite question_part_after_marker.
Qed.

Lemma trailing_question_is_collected_witness :
  process_segment ext_paris false "s1" 100
    (seg "Hey Omi what's the weather in Paris?") (fresh_buffer 100) ∅
  = Continue collecting_100 (<["s1"%string := 100]> ∅)
  ∧ process_segment ext_paris false "s1" 100
      (seg "Hey Omi, what's the weather in Paris?") (fresh_buffer 100) ∅
    = Continue
        (append_question "what's the weather in paris?" collecting_100)
        (<["s1"%string := 100]> ∅).
Proof.
  split.
  - apply (trailing_question_is_collected ext_paris "s1" 100
             "Hey Omi what's the weather in Paris?" (fresh_buffer 100) ∅);
      reflexivity.
  - apply (proj2 (trailing_question_is_collected ext_paris "s1" 100
                    "Hey Omi, what's the weather in Paris?" (fresh_buffer 100)
                    ∅ eq_refl eq_refl eq_refl)
             "hey " " what's the weather in paris?"); reflexivity.
Defined.

(** ** Case *)

(** X20.  Segments are read without regard to case: a segment and its lower-case
    form are handled alike, and the text the loop matches and collects is
    its own lower-case form. *)
Theorem segments_case_insensitive (ext : collaborators) (hp : bool)
    (sid : string) (now : Q) (raw : string) (b : buffer_data)
    (cd : gmap string Q) :
  process_segment ext hp sid now (seg raw) b cd
  = process_segment ext hp sid now (seg (Py.lower raw)) b cd
  ∧ Py.lower (Py.strip (Py.lower raw)) = Py.strip (Py.lower raw).
Proof.
  split.
  - unfold process_segment. cbn [text seg].
    by rewrite lower_is_empty, lower_idem.
  - apply lower_text.
Qed.

(** ** A segment of blanks *)

(** X21.  A segment made of whitespace only is not skipped: inside the window
    it is collected as an empty fragment, which makes the collection
    non-empty; once the window has passed, the next evaluated segment
    sends the resolver the question "?". *)
Theorem blank_segment_is_collected (ext : collaborators) (sid : string)
    (now later : Q) (raw next : string) (b : buffer_data)
    (cd : gmap string Q) :
  Py.is_empty raw = false → Py.strip (Py.lower raw) = ""%string →
  Py.is_empty next = false →
  trigger_detected b = true → response_sent b = false →
  collected_question b = [] →
  now - trigger_time b <= QUESTION_AGGREGATION_TIME →
  trigger_time b + QUESTION_AGGREGATION_TIME < later →
  process_segment ext false sid now (seg raw) b cd
  = Continue (append_question "" b) cd
  ∧ ∃ r rest b',
      process_segment ext false sid later (seg next) (append_question "" b) cd
      = Return r (OpenAI (location_query "?") :: rest) b' cd.
Proof.
  intros Hraw Hblank Hnext Htd Hrs Hcq Hwin Hlate. split.
  - rewrite triggered_goes_to_collection by assumption.
    rewrite collect_stage_in_window by assumption. by rewrite Hblank.
  - rewrite triggered_goes_to_collection by reflexivity || assumption.
    rewrite collect_stage_after_window by assumption.
    cbn [append_question collected_question]. rewrite Hcq. cbn [app nonempty].
    destruct (dispatch_question_shape ext (append_question "" b) cd)
      as (r & rest & b' & E).
    exists r, rest, b'. rewrite E. do 3 f_equal.
    unfold full_question. cbn [append_question collected_question].
    by rewrite Hcq.
Qed.

Lemma blank_segment_is_collected_witness :
  process_segment ext_paris false "s1" 101 (seg "   ") collecting_100 ∅
  = Continue (append_question "" collecting_100) ∅
  ∧ ∃ r rest b',
      process_segment ext_paris false "s1" 106 (seg "hello")
                      (append_question "" collecting_100) ∅
      = Return r (OpenAI (location_query "?") :: rest) b' ∅.
Proof.
  apply (blank_segment_is_collected ext_paris "s1" 101 106 "   " "hello"
           collecting_100 ∅); try reflexivity.
  vm_compute. discriminate.
Defined.

(** ** The entries handed to the forecast text generator *)

Lemma omap_all_some {A B : Type} (f : A → option B) (l : list A) :
  Forall (λ x, is_Some (f x)) l → Some <$> omap f l = f <$> l.
Proof.
  induction 1 as [|x l [y Hy] _ IH]; [done|].
  cbn. rewrite Hy. cbn. by rewrite IH.
Qed.

Lemma py_range_lookup (n step k : nat) :
  py_range 0 n step !! k
  = if decide (k < (n + (step - 1)) / step)%nat then Some (k * step)%nat
    else None.
Proof.
  unfold py_range. rewrite list_lookup_fmap, Nat.sub_0_r.
  case_decide as Hk.
  - by rewrite lookup_seq_lt.
  - by rewrite lookup_seq_ge by lia.
Qed.

Lemma eighth_index_in_range (n k : nat) :
  (k < (n + 7) / 8)%nat ↔ (k * 8 < n)%nat.
Proof.
  pose proof (Nat.div_mod_eq (n + 7) 8) as E.
  pose proof (Nat.mod_upper_bound (n + 7) 8) as U. lia.
Qed.

(** X22.  The daily forecast is made of the entries 0, 8, 16, ... of the
    forecast list, in order and up to its end: one entry in eight, the
    incomplete last group included, and nothing for an empty list. *)
Theorem daily_forecast_every_eighth {A : Type} (forecast_data : list A) :
  length (daily_forecast forecast_data)
  = ((length forecast_data + 7) / 8)%nat
  ∧ ∀ k, daily_forecast forecast_data !! k = forecast_data !! (8 * k)%nat.
Proof.
  assert (Hsome : Some <$> daily_forecast forecast_data
                  = (λ i, forecast_data !! i)
                      <$> py_range 0 (length forecast_data) 8).
  { apply omap_all_some. apply Forall_forall. intros i Hi.
    apply list_elem_of_lookup in Hi as [k Hk].
    rewrite py_range_lookup in Hk. case_decide as Hlt; [|done].
    injection Hk as <-. apply lookup_lt_is_Some.
    by apply eighth_index_in_range. }
  split.
  - rewrite <- (length_fmap Some), Hsome, length_fmap.
    unfold py_range. by rewrite length_map, length_seq, Nat.sub_0_r.
  - intros k.
    assert (H : (Some <$> daily_forecast forecast_data) !! k
                = ((λ i, forecast_data !! i)
                     <$> py_range 0 (length forecast_data) 8) !! k)
      by (by rewrite Hsome).
    rewrite !list_lookup_fmap, py_range_lookup in H.
    change (8 - 1)%nat with 7%nat in H.
    case_decide as Hlt.
    + replace (8 * k)%nat with (k * 8)%nat by lia.
      destruct (daily_forecast forecast_data !! k); by simplify_eq/=.
    + destruct (daily_forecast forecast_data !! k); [discriminate|].
      symmetry. apply lookup_ge_None.
      pose proof (eighth_index_in_range (length forecast_data) k). lia.
Qed.

Example daily_forecast_ex :
  daily_forecast (seq 0 18) = [0; 8; 16]%nat.
Proof. reflexivity. Qed.

(** ** The weather route *)

(** X23.  GET /weather asks for a location when none or an empty one is given;
    otherwise it returns a forecast exactly when the location holds one
    comma, calling the forecast provider once with what precedes and what
    follows the comma, both stripped, and rejects the format without any
    call when the location holds no comma or several. *)
Theorem weather_route_answers (ext : collaborators)
    (location : option string) :
  match location with
  | None => get_weather ext location = (LocationRequired, [])
  | Some loc =>
      if Py.is_empty loc
      then get_weather ext location = (LocationRequired, [])
      else
        (count_char "," loc = 1%nat →
         ∃ p0 p1,
           loc = (p0 +:+ "," +:+ p1)%string
           ∧ get_weather ext location
             = (ForecastFor
                  (get_weather_forecast ext (Py.strip p0) (Py.strip p1)),
                [WeatherForecast (Py.strip p0) (Py.strip p1)]))
        ∧ (count_char "," loc ≠ 1%nat →
           get_weather ext location = (InvalidFormat, []))
  end.
Proof.
  destruct location as [loc|]; [|done].
  destruct (Py.is_empty loc) eqn:Hloc; unfold get_weather; rewrite Hloc;
    [done|].
  split.
  - intros H1. apply split_comma_two in H1 as (p0 & p1 & Hsp).
    exists p0, p1. split.
    + rewrite <- (join_split "," loc) by done. by rewrite Hsp.
    + by rewrite Hsp.
  - intros Hn. pose proof (length_split_comma loc) as Hlen.
    destruct (Py.split "," loc) as [|p0 [|p1 [|p2 l]]]; cbn in Hlen;
      try done; lia.
Qed.

Example get_weather_ex :
  get_weather ext_paris (Some " Paris ,France "%string)
  = (ForecastFor "Sunny in Paris.", [WeatherForecast "Paris" "France"]).
Proof. reflexivity. Qed.

Example get_weather_three_parts :
  get_weather ext_paris (Some "Paris, Ile-de-France, France"%string)
  = (InvalidFormat, []).
Proof. reflexivity. Qed.

(** ** Sessions across requests *)

(** X24.  What [get_buffer] hands back for a session the store knows: the stored
    record with only [last_activity] refreshed, unless a sweep is due and
    finds the record more than 3600s old, in which case the session starts
    afresh, whatever it had collected.  A record older than that is kept
    as long as no sweep is due. *)
Theorem known_session_record (self : MessageBuffer) (sid : string)
    (t ts : Q) (old : buffer_data) :
  buffers self !! sid = Some old →
  (get_buffer self sid t ts).2
  = if cleanup_due self t && expired ts old
    then fresh_buffer t
    else set_last_activity t old.
Proof.
  intros Hold. unfold get_buffer, lookup_or_create. cbn [snd].
  destruct (cleanup_due self t); cbn [andb].
  - rewrite cleanup_lookup, Hold. by destruct (expired ts old).
  - by rewrite Hold.
Qed.

Lemma known_session_record_witness :
  let self := (get_buffer (MessageBuffer_init 0) "s1" 100 100).1 in
  (get_buffer self "s1" 3750 3750).2 = fresh_buffer 3750
  ∧ (get_buffer self "s1" 250 250).2 = set_last_activity 250 (fresh_buffer 100)
  ∧ (get_buffer
       {| buffers := buffers self; cleanup_interval := 300;
          last_cleanup := 3600 |} "s1" 3750 3750).2
    = set_last_activity 3750 (fresh_buffer 100).
Proof.
  intros self. split; [|split].
  - apply (known_session_record self "s1" 3750 3750 (fresh_buffer 100)).
    reflexivity.
  - apply (known_session_record self "s1" 250 250 (fresh_buffer 100)).
    reflexivity.
  - apply (known_session_record
             {| buffers := buffers self; cleanup_interval := 300;
                last_cleanup := 3600 |} "s1" 3750 3750 (fresh_buffer 100)).
    reflexivity.
Defined.
